(** * claude-relay-service: the process manager [scripts/manage.js]

    A shallow embedding of [ServiceManager] and of [main].  The script is
    event driven: every method runs to completion and may leave timers or
    listeners behind, which Node's event loop fires later.  The embedding
    keeps that shape:

    - the file system, the process table and the I/O faults form a [world]
      that the environment (the managed child, the operating system) may
      change between two callbacks;
    - a method is a computation in a state-and-exception monad [M]; a JS
      [throw] is the result [Throw], [process.exit(c)] is the result
      [Exit c], which no [try]/[catch] intercepts;
    - the closures given to [setInterval]/[setTimeout] are first-order
      data ([closure]) that the event loop [run] dispatches.

    Conventions.  Strings are sequences of ASCII characters; JS numbers are
    modelled as [Z] plus [NaN] (no floating point rounding); [JSON.parse] is
    a builtin of the runtime and is taken as a parameter. *)

From Stdlib Require Import ZArith QArith List String Ascii Bool Lia.
Import ListNotations.
Open Scope string_scope.
Open Scope Z_scope.

(** ** JS strings and numbers *)

Module Js.

Inductive jsnum := NaN | Num (z : Z).

(** Truthiness of a number: [NaN] and [0] are falsy. *)
Definition truthy (n : jsnum) : bool :=
  match n with
  | NaN => false
  | Num z => negb (z =? 0)
  end.

(** [a || d] on numbers. *)
Definition or_default (n : jsnum) (d : Z) : Z :=
  match n with
  | NaN => d
  | Num z => if z =? 0 then d else z
  end.

(** White space and line terminators of the ASCII range
    (TAB, LF, VT, FF, CR, SP). *)
Definition is_ws (c : ascii) : bool :=
  let n := nat_of_ascii c in
  (Nat.eqb n 9 || Nat.eqb n 10 || Nat.eqb n 11 || Nat.eqb n 12
   || Nat.eqb n 13 || Nat.eqb n 32)%bool.

Fixpoint trimStart (s : string) : string :=
  match s with
  | String c t => if is_ws c then trimStart t else s
  | EmptyString => EmptyString
  end.

Fixpoint trimEnd (s : string) : string :=
  match s with
  | EmptyString => EmptyString
  | String c t =>
      match trimEnd t with
      | EmptyString => if is_ws c then EmptyString else String c EmptyString
      | t' => String c t'
      end
  end.

(** [String.prototype.trim] *)
Definition trim (s : string) : string := trimEnd (trimStart s).

(** Value of a character as a digit in the given radix (10 or 16). *)
Definition digit (radix : Z) (c : ascii) : option Z :=
  let n := Z.of_nat (nat_of_ascii c) in
  let v :=
    if (48 <=? n) && (n <=? 57) then Some (n - 48)
    else if (97 <=? n) && (n <=? 122) then Some (n - 87)
    else if (65 <=? n) && (n <=? 90) then Some (n - 55)
    else None in
  match v with
  | Some d => if d <? radix then Some d else None
  | None => None
  end.

(** The longest prefix of digits, read most significant digit first;
    [None] when the prefix is empty. *)
Fixpoint digits (radix : Z) (acc : option Z) (s : string) : option Z :=
  match s with
  | EmptyString => acc
  | String c t =>
      match digit radix c with
      | Some d =>
          digits radix
            (Some (match acc with Some a => a * radix + d | None => d end)) t
      | None => acc
      end
  end.

(** An optional sign in front of the digits. *)
Definition strip_sign (s : string) : Z * string :=
  match s with
  | String c t =>
      if Ascii.eqb c "-" then (-1, t)
      else if Ascii.eqb c "+" then (1, t)
      else (1, s)
  | EmptyString => (1, s)
  end.

(** A [0x] or [0X] prefix selects radix 16. *)
Definition strip_radix (s : string) : Z * string :=
  match s with
  | String a (String b t) =>
      if Ascii.eqb a "0" && (Ascii.eqb b "x" || Ascii.eqb b "X")
      then (16, t) else (10, s)
  | _ => (10, s)
  end.

(** [parseInt(string)] with the radix left undefined (ECMA-262 19.2.5):
    leading white space is skipped, one sign is read, a [0x]/[0X] prefix
    selects radix 16, then the longest prefix of digits is the value and
    anything after it is ignored. *)
Definition parseInt (input : string) : jsnum :=
  let '(sign, s) := strip_sign (trimStart input) in
  let '(radix, s) := strip_radix s in
  match digits radix None s with
  | Some v => Num (sign * v)
  | None => NaN
  end.

(** [parseInt(x)] where [x] may be [undefined]: the argument is first
    converted to the string "undefined". *)
Definition parseInt_opt (x : option string) : jsnum :=
  match x with
  | Some s => parseInt s
  | None => parseInt "undefined"
  end.

(** [s.startsWith(p)] *)
Fixpoint startsWith (s p : string) {struct p} : bool :=
  match p with
  | EmptyString => true
  | String a p' =>
      match s with
      | EmptyString => false
      | String b s' => Ascii.eqb a b && startsWith s' p'
      end
  end.

(** [s.includes(p)] *)
Fixpoint includes (s p : string) : bool :=
  startsWith s p ||
  match s with
  | EmptyString => false
  | String _ t => includes t p
  end.

Definition LF : ascii := "010"%char.

(** [s.split('\n')] *)
Fixpoint split_lines (s : string) : list string :=
  match s with
  | EmptyString => [EmptyString]
  | String c t =>
      if Ascii.eqb c LF then EmptyString :: split_lines t
      else match split_lines t with
           | l :: ls => String c l :: ls
           | [] => [String c EmptyString]
           end
  end.

(** [l.join('\n')] *)
Fixpoint join_lines (l : list string) : string :=
  match l with
  | [] => EmptyString
  | [x] => x
  | x :: rest => x ++ String LF (join_lines rest)
  end.

(** [l.slice(-n)]: the last [n] elements. *)
Definition slice_last {A} (n : nat) (l : list A) : list A :=
  skipn (List.length l - n) l.

(** [n.toString()] for an integer: decimal digits, with a minus sign. *)
Fixpoint pos_digits (fuel : nat) (n : Z) (acc : string) : string :=
  match fuel with
  | O => acc
  | S fuel' =>
      let acc' := String (ascii_of_nat (Z.to_nat (48 + n mod 10))) acc in
      if n / 10 =? 0 then acc' else pos_digits fuel' (n / 10) acc'
  end.

Definition toString (n : Z) : string :=
  if n <? 0 then String "-" (pos_digits (S (Z.to_nat (Z.log2 (- n)))) (- n) EmptyString)
  else pos_digits (S (Z.to_nat (Z.log2 n))) n EmptyString.

(** Values produced by [JSON.parse]. *)
#[warnings="-register-all"]
Inductive json :=
| JNull
| JBool (b : bool)
| JNumber (q : Q)
| JString (s : string)
| JArray (l : list json)
| JObject (props : list (string * json)).

(** The result of reading a property: a value or [undefined]. *)
Definition lookup_prop (k : string) (props : list (string * json))
  : option json :=
  match find (fun p => String.eqb (fst p) k) props with
  | Some p => Some (snd p)
  | None => None
  end.

(** [v === n] for a property read [v] and an integer [n]. *)
Definition strict_eq_int (v : option json) (n : Z) : bool :=
  match v with
  | Some (JNumber q) => Qeq_bool q (inject_Z n)
  | _ => false
  end.

End Js.
Import Js.

(** ** The world outside the controller *)

(** The paths the script touches (lines 8-12), and the directory of the
    logs (line 20). *)
Inductive file :=
| PID_FILE | LOG_FILE | ERROR_LOG_FILE | STARTUP_MARKER_FILE | LOG_DIR.

Definition file_eqb (a b : file) : bool :=
  match a, b with
  | PID_FILE, PID_FILE | LOG_FILE, LOG_FILE
  | ERROR_LOG_FILE, ERROR_LOG_FILE
  | STARTUP_MARKER_FILE, STARTUP_MARKER_FILE
  | LOG_DIR, LOG_DIR => true
  | _, _ => false
  end.

(** Signal [SIG0] is the null signal of [process.kill(pid, 0)]: the call
    checks that the process can be signalled and delivers nothing. *)
Inductive signal := SIG0 | SIGTERM | SIGKILL.

Definition signal_eqb (a b : signal) : bool :=
  match a, b with
  | SIG0, SIG0 | SIGTERM, SIGTERM | SIGKILL, SIGKILL => true
  | _, _ => false
  end.

Inductive fsop := OpRead | OpWrite | OpUnlink | OpOpen | OpMkdir.

(** What the operating system decides.  [fs f] is the content of the file
    [f] when it exists (for the directory [LOG_DIR] only its existence
    matters).  [kill_ok pid sig] tells whether
    [process.kill(pid, sig)] returns normally (the process exists and may be
    signalled) or throws; [faulty op f] tells whether the file operation
    [op] on [f] throws for a reason other than the absence of the file
    (permissions, a locked file, a full disk); [child_pid] is the pid the
    next [spawn] gives to the child. *)
Record world := mkWorld {
  fs : file -> option string;
  kill_ok : Z -> signal -> bool;
  faulty : fsop -> file -> bool;
  child_pid : Z
}.

Definition fs_set (f : file) (v : option string) (w : world) : world :=
  mkWorld (fun g => if file_eqb g f then v else fs w g)
          (kill_ok w) (faulty w) (child_pid w).

(** ** The controller's own state *)

(** Lines written to the console; one constructor per message or per block
    of consecutive messages of the source (the line numbers are those of
    manage.js). *)
Inductive msg :=
| MReadPidFailed                      (* 33 *)
| MPidSaved (pid : Z)                 (* 50 *)
| MWritePidFailed                     (* 52 *)
| MPidFileRemoved                     (* 60 *)
| MMarkerRemoved                      (* 65 *)
| MCleanupFailed                      (* 68 *)
| MAlreadyRunning (pid : Z)           (* 83 *)
| MStarting                           (* 87 *)
| MStaleMarkerWarn                    (* 94 *)
| MDaemonLaunched (pid : Z)           (* 115 *)
| MLogLocations                       (* 117-118 *)
| MWaiting                            (* 121 *)
| MChildGone                          (* 131-135 *)
| MStartedByMarker (port : option json) (* 146-152 *)
| MStartedByLog                       (* 169-174 *)
| MFailureDetected (errorLines : list string) (* 185-191 *)
| MStartupTimeout                     (* 208-213 *)
| MDaemonLaunchFailed                 (* 218 *)
| MForegroundLaunched (pid : Z)       (* 228 *)
| MChildExit (code : option Z) (sig : option signal) (* 236 *)
| MLaunchError                        (* 241 *)
| MNotRunning                         (* 252 *)
| MStopping (pid : Z)                 (* 257 *)
| MStopped                            (* 271 *)
| MForcing                            (* 278 *)
| MForceStopped                       (* 281 *)
| MForceFailed                        (* 283 *)
| MStopFailed                         (* 289 *)
| MRestarting                         (* 298 *)
| MStatusRunning (pid : Z)            (* 311 *)
| MStatusNotRunning                   (* 322 *)
| MFollowing                          (* 329 *)
| MFollowStopped                      (* 338 *)
| MLastLines (lines : Z)              (* 342 *)
| MUnknownCommand (command : option string) (* 455 *)
| MHelp.                              (* 355-409 *)

(** Commands handed to [exec] and [spawn] besides the service itself. *)
Inductive command :=
| ExecPs (pid : Z)                    (* 314 *)
| ExecTail (lines : Z)                (* 344 *)
| SpawnTailFollow.                    (* 331 *)

(** The closures the script gives to [setInterval] and [setTimeout], with
    the variables they capture: the readiness poll of [start] (lines
    125-216, capturing [child.pid] and [checkCount]), the exit poll of
    [stop] (lines 267-287, capturing [status.pid] and [attempts]) and the
    delayed start of [restart] (lines 301-303). *)
Inductive closure :=
| CheckStartup (child : Z) (checkCount : nat)
| CheckExit (pid : Z) (attempts : nat)
| DelayedStart (daemon : bool).

Record timer := mkTimer {
  tid : nat;
  due : Z;                 (* milliseconds *)
  period : option Z;       (* [Some p] for an interval *)
  callback : closure
}.

Record mstate := mkState {
  wd : world;
  kills : list (Z * signal * bool);  (* calls of process.kill with a real
                                        signal, oldest first, with their
                                        success *)
  console : list msg;                (* oldest first *)
  launched : list Z;                 (* pids of the children spawned *)
  execs : list command;
  timers : list timer;
  next_tid : nat;
  now : Z;
  fg_child : option Z;               (* child with 'exit'/'error' listeners *)
  follower : bool                    (* [tail -f] with the SIGINT handler *)
}.

Definition initial (w : world) : mstate :=
  mkState w [] [] [] [] [] 0 0 None false.

Definition set_wd (f : world -> world) (s : mstate) : mstate :=
  mkState (f (wd s)) (kills s) (console s) (launched s) (execs s)
          (timers s) (next_tid s) (now s) (fg_child s) (follower s).

Definition set_timers (f : list timer -> list timer) (s : mstate) : mstate :=
  mkState (wd s) (kills s) (console s) (launched s) (execs s)
          (f (timers s)) (next_tid s) (now s) (fg_child s) (follower s).

(** ** The monad of the script: state, exceptions and [process.exit] *)

Inductive exn := EIO (op : fsop) (f : file) | ESRCH | SyntaxError | TypeError.

Inductive result (A : Type) :=
| Val (a : A)
| Throw (e : exn)
| Exit (code : Z).
Arguments Val {A} a.
Arguments Throw {A} e.
Arguments Exit {A} code.

Definition M (A : Type) : Type := mstate -> result A * mstate.

Definition ret {A} (a : A) : M A := fun s => (Val a, s).

Definition bind {A B} (m : M A) (k : A -> M B) : M B :=
  fun s =>
    match m s with
    | (Val a, s') => k a s'
    | (Throw e, s') => (Throw e, s')
    | (Exit c, s') => (Exit c, s')
    end.

Definition throw {A} (e : exn) : M A := fun s => (Throw e, s).

(** [process.exit(code)]: nothing after it runs, and no handler sees it. *)
Definition exit {A} (code : Z) : M A := fun s => (Exit code, s).

(** [try { m } catch (error) { h }] *)
Definition try_catch {A} (m : M A) (h : exn -> M A) : M A :=
  fun s =>
    match m s with
    | (Throw e, s') => h e s'
    | r => r
    end.

Declare Scope js_scope.
Delimit Scope js_scope with js.
Notation "x <- m ;; k" := (bind m (fun x => k))
  (at level 100, m at next level, right associativity) : js_scope.
Notation "m ;; k" := (bind m (fun _ => k))
  (at level 100, right associativity) : js_scope.
Notation "'when' b 'then' m" := (if b then m else ret tt)
  (at level 100, b at next level, m at next level) : js_scope.
Open Scope js_scope.

(** *** The primitives of Node the script uses *)

Definition isSome {A} (o : option A) : bool :=
  match o with Some _ => true | None => false end.

(** [fs.existsSync(f)] never throws. *)
Definition existsSync (f : file) : M bool :=
  fun s => (Val (isSome (fs (wd s) f)), s).

(** [fs.readFileSync(f, 'utf8')] *)
Definition readFileSync (f : file) : M string :=
  fun s =>
    match fs (wd s) f with
    | Some c => if faulty (wd s) OpRead f then (Throw (EIO OpRead f), s)
                else (Val c, s)
    | None => (Throw (EIO OpRead f), s)
    end.

(** [fs.writeFileSync(f, data)] *)
Definition writeFileSync (f : file) (data : string) : M unit :=
  fun s =>
    if faulty (wd s) OpWrite f then (Throw (EIO OpWrite f), s)
    else (Val tt, set_wd (fs_set f (Some data)) s).

(** [fs.unlinkSync(f)] *)
Definition unlinkSync (f : file) : M unit :=
  fun s =>
    match fs (wd s) f with
    | Some _ => if faulty (wd s) OpUnlink f then (Throw (EIO OpUnlink f), s)
                else (Val tt, set_wd (fs_set f None) s)
    | None => (Throw (EIO OpUnlink f), s)
    end.

(** [fs.openSync(f, 'a')]: the file is created when it is not there. *)
Definition openSync (f : file) : M unit :=
  fun s =>
    if faulty (wd s) OpOpen f then (Throw (EIO OpOpen f), s)
    else match fs (wd s) f with
         | Some _ => (Val tt, s)
         | None => (Val tt, set_wd (fs_set f (Some EmptyString)) s)
         end.

(** [fs.mkdirSync(d, { recursive: true })]: no error when the directory is
    there. *)
Definition mkdirSync (d : file) : M unit :=
  fun s =>
    if faulty (wd s) OpMkdir d then (Throw (EIO OpMkdir d), s)
    else match fs (wd s) d with
         | Some _ => (Val tt, s)
         | None => (Val tt, set_wd (fs_set d (Some EmptyString)) s)
         end.

(** [process.kill(pid, sig)].  A call with a real signal is recorded with
    its success; the null signal is a probe and leaves no record. *)
Definition kill (pid : Z) (sig : signal) : M unit :=
  fun s =>
    let ok := kill_ok (wd s) pid sig in
    let s' :=
      match sig with
      | SIG0 => s
      | _ => mkState (wd s) (kills s ++ [(pid, sig, ok)]) (console s)
                     (launched s) (execs s) (timers s) (next_tid s) (now s)
                     (fg_child s) (follower s)
      end in
    if ok then (Val tt, s') else (Throw ESRCH, s').

(** [console.log], [console.warn] and [console.error] *)
Definition log (m : msg) : M unit :=
  fun s => (Val tt,
            mkState (wd s) (kills s) (console s ++ [m]) (launched s) (execs s)
                    (timers s) (next_tid s) (now s) (fg_child s) (follower s)).

(** [spawn('node', [APP_FILE], ...)]: the pid of the child. *)
Definition spawn_service : M Z :=
  fun s => (Val (child_pid (wd s)),
            mkState (wd s) (kills s) (console s)
                    (launched s ++ [child_pid (wd s)]) (execs s)
                    (timers s) (next_tid s) (now s) (fg_child s) (follower s)).

(** [exec(cmd, callback)] and [spawn('tail', ...)]: the callbacks of
    [exec] only print, so the command is recorded and its output is not. *)
Definition exec (c : command) : M unit :=
  fun s => (Val tt,
            mkState (wd s) (kills s) (console s) (launched s) (execs s ++ [c])
                    (timers s) (next_tid s) (now s) (fg_child s) (follower s)).

Definition add_timer (p : option Z) (ms : Z) (cb : closure) : M nat :=
  fun s => (Val (next_tid s),
            mkState (wd s) (kills s) (console s) (launched s) (execs s)
                    (timers s ++ [mkTimer (next_tid s) (now s + ms) p cb])
                    (S (next_tid s)) (now s) (fg_child s) (follower s)).

(** [setInterval(cb, ms)] and [setTimeout(cb, ms)] *)
Definition setInterval (cb : closure) (ms : Z) : M nat := add_timer (Some ms) ms cb.
Definition setTimeout (cb : closure) (ms : Z) : M nat := add_timer None ms cb.

(** [clearInterval(id)] *)
Definition clearInterval (id : nat) : M unit :=
  fun s => (Val tt, set_timers (filter (fun t => negb (Nat.eqb (tid t) id))) s).

Definition set_fg_child (c : option Z) : M unit :=
  fun s => (Val tt,
            mkState (wd s) (kills s) (console s) (launched s) (execs s)
                    (timers s) (next_tid s) (now s) c (follower s)).

Definition set_follower (b : bool) : M unit :=
  fun s => (Val tt,
            mkState (wd s) (kills s) (console s) (launched s) (execs s)
                    (timers s) (next_tid s) (now s) (fg_child s) b).

(** ** ServiceManager *)

(** What [getStatus] returns: [{ running: true, pid }] or
    [{ running: false, pid: null }] (lines 75 and 77). *)
Inductive status_t := Running (pid : Z) | NotRunning.

Definition running (st : status_t) : bool :=
  match st with Running _ => true | NotRunning => false end.

Definition status_pid (st : status_t) : option Z :=
  match st with Running p => Some p | NotRunning => None end.

(** The strings the readiness poll looks for in the log (lines 167 and
    180-182). *)
Definition SUCCESS_MARK : string := "Claude Relay Service started on".
Definition FAILURE_MARKS : list string :=
  ["Failed to start server"; "Application initialization failed";
   "Failed to connect to Redis"].

Definition maxChecks : nat := 30.       (* line 124 *)
Definition maxAttempts : nat := 30.     (* line 265 *)

Section Manager.

(** [JSON.parse]: [None] stands for the SyntaxError it throws. *)
Variable JSON_parse : string -> option json.

Definition parse_json (text : string) : M json :=
  match JSON_parse text with
  | Some v => ret v
  | None => throw SyntaxError
  end.

(** [v.k]: reading a property of [null] throws a TypeError; numbers,
    strings, booleans and arrays have no property of the names used here. *)
Definition get_prop (v : json) (k : string) : M (option json) :=
  match v with
  | JNull => throw TypeError
  | JObject props => ret (lookup_prop k props)
  | _ => ret None
  end.

(** Lines 19-24, called by the constructor. *)
Definition ensureLogDir : M unit :=
  there <- existsSync LOG_DIR ;;
  when negb there then mkdirSync LOG_DIR.

(** Lines 26-36.  The value is [null] ([None]), [NaN] or an integer. *)
Definition getPid : M (option jsnum) :=
  try_catch
    (present <- existsSync PID_FILE ;;
     if present then
       content <- readFileSync PID_FILE ;;
       ret (Some (parseInt (trim content)))
     else ret None)
    (fun _ => log MReadPidFailed ;; ret None).

(** Lines 38-45. *)
Definition isProcessRunning (pid : Z) : M bool :=
  try_catch (kill pid SIG0 ;; ret true) (fun _ => ret false).

(** Lines 47-54. *)
Definition writePid (pid : Z) : M unit :=
  try_catch
    (writeFileSync PID_FILE (toString pid) ;; log (MPidSaved pid))
    (fun _ => log MWritePidFailed).

(** Lines 56-70: one [try] around both removals. *)
Definition removePidFile : M unit :=
  try_catch
    (pidThere <- existsSync PID_FILE ;;
     (when pidThere then (unlinkSync PID_FILE ;; log MPidFileRemoved)) ;;
     markerThere <- existsSync STARTUP_MARKER_FILE ;;
     (when markerThere then
        (unlinkSync STARTUP_MARKER_FILE ;; log MMarkerRemoved)))
    (fun _ => log MCleanupFailed).

(** Lines 72-78: [pid && this.isProcessRunning(pid)]. *)
Definition getStatus : M status_t :=
  pid <- getPid ;;
  match pid with
  | Some (Num z) =>
      if truthy (Num z) then
        alive <- isProcessRunning z ;;
        if alive then ret (Running z) else ret NotRunning
      else ret NotRunning
  | Some NaN | None => ret NotRunning
  end.

(** The part of the log the poll looks at (line 164). *)
Definition recent (logContent : string) : string :=
  join_lines (slice_last 30 (split_lines logContent)).

Definition has_failure_mark (recentLog : string) : bool :=
  existsb (includes recentLog) FAILURE_MARKS.

(** Lines 187-188. *)
Definition error_lines (recentLog : string) : list string :=
  slice_last 5 (filter (fun line => includes line "ERROR")
                       (split_lines recentLog)).

(** The callback of the readiness poll, lines 125-216.  [self] is the
    interval ([checkInterval]); the value returned is the new
    [checkCount]. *)
Definition checkStartup (self : nat) (child : Z) (checkCount : nat) : M nat :=
  let checkCount := S checkCount in
  (* 129-138: is the child still there? *)
  alive <- isProcessRunning child ;;
  (when negb alive then
     (clearInterval self ;; log MChildGone ;; removePidFile ;; exit 1)) ;;
  (* 141-158: the startup marker *)
  markerThere <- existsSync STARTUP_MARKER_FILE ;;
  (when markerThere then
     try_catch
       (text <- readFileSync STARTUP_MARKER_FILE ;;
        markerData <- parse_json text ;;
        markerPid <- get_prop markerData "pid" ;;
        when strict_eq_int markerPid child then
          (clearInterval self ;;
           port <- get_prop markerData "port" ;;
           log (MStartedByMarker port) ;;
           exit 0))
       (fun _ => ret tt)) ;;
  (* 161-204: the log *)
  try_catch
    (logThere <- existsSync LOG_FILE ;;
     when logThere then
       (logContent <- readFileSync LOG_FILE ;;
        let recentLog := recent logContent in
        (when includes recentLog SUCCESS_MARK then
           (clearInterval self ;; log MStartedByLog ;; exit 0)) ;;
        when has_failure_mark recentLog then
          (clearInterval self ;;
           log (MFailureDetected (error_lines recentLog)) ;;
           removePidFile ;;
           try_catch (kill child SIGTERM) (fun _ => ret tt) ;;
           exit 1)))
    (fun _ => ret tt) ;;
  (* 206-215: out of checks *)
  (when (maxChecks <=? checkCount)%nat then
     (clearInterval self ;; log MStartupTimeout ;; exit 0)) ;;
  ret checkCount.

(** Lines 80-247. *)
Definition start (daemon : bool) : M bool :=
  status <- getStatus ;;
  match status with
  | Running pid => log (MAlreadyRunning pid) ;; ret false
  | NotRunning =>
      log MStarting ;;
      (* 90-96 *)
      markerThere <- existsSync STARTUP_MARKER_FILE ;;
      (when markerThere then
         try_catch (unlinkSync STARTUP_MARKER_FILE)
                   (fun _ => log MStaleMarkerWarn)) ;;
      (if daemon then
         (* 100-221 *)
         try_catch
           (openSync LOG_FILE ;;
            openSync ERROR_LOG_FILE ;;
            child <- spawn_service ;;
            log (MDaemonLaunched child) ;;
            writePid child ;;
            log MLogLocations ;;
            log MWaiting ;;
            _ <- setInterval (CheckStartup child 0) 200 ;;
            ret tt)
           (fun _ => log MDaemonLaunchFailed ;; removePidFile ;; exit 1)
       else
         (* 224-243 *)
         (child <- spawn_service ;;
          log (MForegroundLaunched child) ;;
          writePid child ;;
          set_fg_child (Some child))) ;;
      ret true
  end.

(** The listener of the child's 'exit' event, lines 233-238
    ([code] is [null] when a signal ended the child). *)
Definition on_child_exit (code : option Z) (sig : option signal) : M unit :=
  removePidFile ;;
  match code with
  | Some 0 => ret tt
  | _ => log (MChildExit code sig)
  end.

(** The listener of the child's 'error' event, lines 240-243. *)
Definition on_child_error : M unit :=
  log MLaunchError ;; removePidFile.

(** The callback of the exit poll, lines 267-287.  [self] is the interval
    ([checkExit]); the value returned is the new [attempts]. *)
Definition checkExit (self : nat) (pid : Z) (attempts : nat) : M nat :=
  let attempts := S attempts in
  alive <- isProcessRunning pid ;;
  if negb alive then
    clearInterval self ;; log MStopped ;; removePidFile ;; ret attempts
  else
    (when (maxAttempts <=? attempts)%nat then
       (clearInterval self ;;
        log MForcing ;;
        try_catch (kill pid SIGKILL ;; log MForceStopped)
                  (fun _ => log MForceFailed) ;;
        removePidFile)) ;;
    ret attempts.

(** Lines 249-295. *)
Definition stop : M bool :=
  status <- getStatus ;;
  match status with
  | NotRunning => log MNotRunning ;; removePidFile ;; ret false
  | Running pid =>
      log (MStopping pid) ;;
      try_catch
        (kill pid SIGTERM ;;
         _ <- setInterval (CheckExit pid 0) 1000 ;;
         ret true)
        (fun _ => log MStopFailed ;; removePidFile ;; ret false)
  end.

(** Lines 297-306. *)
Definition restart (daemon : bool) : M bool :=
  log MRestarting ;;
  _ <- stop ;;
  _ <- setTimeout (DelayedStart daemon) 2000 ;;
  ret true.

(** Lines 308-325. *)
Definition status : M bool :=
  st <- getStatus ;;
  match st with
  | Running pid => log (MStatusRunning pid) ;; exec (ExecPs pid) ;; ret true
  | NotRunning => log MStatusNotRunning ;; ret false
  end.

(** Lines 327-352. *)
Definition logs (lines : Z) (follow : bool) : M unit :=
  if follow then
    log MFollowing ;; exec SpawnTailFollow ;; set_follower true
  else
    log (MLastLines lines) ;; exec (ExecTail lines).

(** The SIGINT handler of the follow mode, lines 336-340. *)
Definition on_sigint : M unit :=
  set_follower false ;; log MFollowStopped ;; exit 0.

Definition help : M unit := log MHelp.

(** *** main, lines 414-459 *)

Definition arg_in (a : string) (args : list string) : bool :=
  existsb (String.eqb a) args.

(** [args.find(...)] of lines 441-443. *)
Definition linesArg (args : list string) : option string :=
  find (fun arg => negb (startsWith arg "-")
                   && negb (String.eqb arg "logs")
                   && negb (String.eqb arg "log")
                   && negb (String.eqb arg "l")) args.

(** The number of lines asked from [logs], line 444. *)
Definition lines_requested (args : list string) : Z :=
  or_default (parseInt_opt (linesArg args)) 50.

(** The [switch] of [main], lines 416-458. *)
Definition dispatch (args : list string) : M unit :=
  let command := hd_error args in
  let isDaemon := arg_in "-d" args || arg_in "--daemon" args in
  let on c := match command with Some x => String.eqb x c | None => false end in
  if on "start" || on "s" then _ <- start isDaemon ;; ret tt
  else if on "stop" || on "halt" then _ <- stop ;; ret tt
  else if on "restart" || on "r" then _ <- restart isDaemon ;; ret tt
  else if on "status" || on "st" then _ <- status ;; ret tt
  else if on "logs" || on "log" || on "l" then
    let follow := arg_in "-f" args || arg_in "--follow" args in
    logs (lines_requested args) follow
  else if on "help" || on "--help" || on "-h" || on "h" then help
  else log (MUnknownCommand command) ;; help ;; exit 1.

(** [main]: the manager is constructed, which makes sure the directory of
    the logs is there, then the command is dispatched. *)
Definition main (args : list string) : M unit :=
  ensureLogDir ;; dispatch args.

(** ** The event loop *)

(** What reaches the controller from outside between two callbacks: the
    foreground child ends or could not be launched, the user presses
    Ctrl+C, the [tail -f] child ends. *)
Inductive ext_event :=
| ChildExited (code : option Z) (sig : option signal)
| ChildErrored
| Interrupt
| TailExited.

(** One move of the environment: the world changes, and an event may
    arrive.  An [environment] lists the moves, the next one first. *)
Record env_step := mkEnv {
  change : world -> world;
  arrival : option ext_event
}.

Definition environment := nat -> env_step.

Definition shift (env : environment) : environment := fun n => env (S n).

(** The timer that expires first; among equal expiries, the one armed
    first. *)
Fixpoint earliest (l : list timer) : option timer :=
  match l with
  | [] => None
  | t :: rest =>
      match earliest rest with
      | Some u => if due u <? due t then Some u else Some t
      | None => Some t
      end
  end.

(** The clock reaches the expiry of [t]; a timeout leaves the list, an
    interval is armed again one period later. *)
Definition expire (t : timer) : M unit :=
  fun s =>
    let others := filter (fun u => negb (Nat.eqb (tid u) (tid t))) (timers s) in
    let again :=
      match period t with
      | Some p => [mkTimer (tid t) (due t + p) (Some p) (callback t)]
      | None => []
      end in
    (Val tt,
     mkState (wd s) (kills s) (console s) (launched s) (execs s)
             (others ++ again) (next_tid s) (due t) (fg_child s) (follower s)).

(** The variable a closure captured keeps its new value for the next
    call. *)
Definition recapture (id : nat) (cb : closure) : M unit :=
  fun s =>
    (Val tt,
     set_timers (map (fun u => if Nat.eqb (tid u) id
                               then mkTimer id (due u) (period u) cb
                               else u)) s).

Definition fire (t : timer) : M unit :=
  expire t ;;
  match callback t with
  | CheckStartup child n =>
      n' <- checkStartup (tid t) child n ;;
      recapture (tid t) (CheckStartup child n')
  | CheckExit pid n =>
      n' <- checkExit (tid t) pid n ;;
      recapture (tid t) (CheckExit pid n')
  | DelayedStart daemon => _ <- start daemon ;; ret tt
  end.

(** One turn of the loop: the environment moves, then the listener of the
    event that arrived runs, or else the next timer fires. *)
Definition turn (e : env_step) : M unit :=
  fun s0 =>
    let s := set_wd (change e) s0 in
    match arrival e, fg_child s, follower s with
    | Some (ChildExited code sig), Some _, _ =>
        (set_fg_child None ;; on_child_exit code sig) s
    | Some ChildErrored, Some _, _ =>
        (set_fg_child None ;; on_child_error) s
    | Some Interrupt, _, true => on_sigint s
    | Some TailExited, _, true => set_follower false s
    | _, _, _ =>
        match earliest (timers s) with
        | Some t => fire t s
        | None => (Val tt, s)
        end
    end.

(** Nothing keeps the loop alive. *)
Definition drained (s : mstate) : bool :=
  match timers s, fg_child s, follower s with
  | [], None, false => true
  | _, _, _ => false
  end.

(** How the controller process ends: with an exit code, or not within the
    turns observed. *)
Inductive outcome :=
| Finished (code : Z) (s : mstate)
| StillRunning (s : mstate).

(** The exit code is the argument of [process.exit], 0 when the loop
    drains, 1 for an exception nobody caught. *)
Definition settle (r : result unit * mstate) (k : mstate -> outcome) : outcome :=
  match r with
  | (Val _, s) => k s
  | (Exit c, s) => Finished c s
  | (Throw _, s) => Finished 1 s
  end.

Fixpoint run (fuel : nat) (env : environment) (s : mstate) : outcome :=
  if drained s then Finished 0 s
  else match fuel with
       | O => StillRunning s
       | S fuel' => settle (turn (env O) s) (run fuel' (shift env))
       end.

(** [node scripts/manage.js args...] in the world [w]. *)
Definition cli (fuel : nat) (env : environment) (args : list string) (w : world)
  : outcome :=
  settle (main args (initial w)) (run fuel env).

End Manager.

Definition exit_code (o : outcome) : option Z :=
  match o with
  | Finished c _ => Some c
  | StillRunning _ => None
  end.

Definition final (o : outcome) : mstate :=
  match o with
  | Finished _ s | StillRunning s => s
  end.

(** ** The environment alone *)

(** The world after the first [n] moves of the environment, when the
    controller writes nothing in between. *)
Fixpoint drift (env : environment) (n : nat) (w : world) : world :=
  match n with
  | O => w
  | S k => drift (shift env) k (change (env O) w)
  end.

(** An environment that never moves. *)
Definition still : environment := fun _ => mkEnv (fun w => w) None.

(** The environment that delivers one event on its first move. *)
Definition once (e : ext_event) : environment :=
  fun n => mkEnv (fun w => w) (match n with O => Some e | S _ => None end).

(** ** The readiness detector as the specification words it

    Section 4.3 of the specification: a state machine
    [POLLING -> {SUCCESS, FAILURE, TIMEOUT}] whose tick checks, in order,
    liveness, the marker, the log, and the tick count. *)

Inductive detector_state := POLLING | SUCCESS | FAILURE | TIMEOUT.

Definition spec_exit_code (d : detector_state) : option Z :=
  match d with
  | SUCCESS | TIMEOUT => Some 0
  | FAILURE => Some 1
  | POLLING => None
  end.

Section Detector.

Variable JSON_parse : string -> option json.

(** "the StartupMarker exists, parses, and its pid equals the spawned
    pid" *)
Definition marker_valid (w : world) (child : Z) : bool :=
  match fs w STARTUP_MARKER_FILE with
  | Some text =>
      negb (faulty w OpRead STARTUP_MARKER_FILE) &&
      match JSON_parse text with
      | Some (JObject props) => strict_eq_int (lookup_prop "pid" props) child
      | _ => false
      end
  | None => false
  end.

(** "the most recent ~30 lines of the standard-output log", when the log
    can be read. *)
Definition recent_log (w : world) : option string :=
  match fs w LOG_FILE with
  | Some content =>
      if faulty w OpRead LOG_FILE then None else Some (recent content)
  | None => None
  end.

Definition log_success (w : world) : bool :=
  match recent_log w with
  | Some r => includes r SUCCESS_MARK
  | None => false
  end.

Definition log_failure (w : world) : bool :=
  match recent_log w with
  | Some r => has_failure_mark r
  | None => false
  end.

(** One tick, the [tick]-th, for the child [child] in the world [w]. *)
Definition spec_tick (w : world) (child : Z) (tick : nat) : detector_state :=
  if negb (kill_ok w child SIG0) then FAILURE
  else if marker_valid w child then SUCCESS
  else if log_success w then SUCCESS
  else if log_failure w then FAILURE
  else if (maxChecks <=? tick)%nat then TIMEOUT
  else POLLING.

(** The detector over [budget] more ticks, [tick] of them being over. *)
Fixpoint spec_detect (env : environment) (w : world) (child : Z)
         (tick budget : nat) : detector_state :=
  match budget with
  | O => POLLING
  | S b =>
      let w1 := change (env O) w in
      match spec_tick w1 child (S tick) with
      | POLLING => spec_detect (shift env) w1 child (S tick) b
      | d => d
      end
  end.

End Detector.

(** ** Sample data for the examples *)

Definition dquote : string := String "034"%char EmptyString.

(** The text [{"pid":5000,"port":3000}]. *)
Definition sample_marker_text : string :=
  "{" ++ dquote ++ "pid" ++ dquote ++ ":5000," ++ dquote ++ "port" ++ dquote
  ++ ":3000}".

Definition sample_marker : json :=
  JObject [("pid", JNumber (inject_Z 5000)); ("port", JNumber (inject_Z 3000))].

(** A stand-in for [JSON.parse] in the examples: it knows the sample
    marker and the text [null], and rejects every other text. *)
Definition sample_parse (text : string) : option json :=
  if String.eqb text sample_marker_text then Some sample_marker
  else if String.eqb text "null" then Some JNull
  else None.

(** A file system with the directory of the logs and at most a PID file,
    a log and a marker. *)
Definition files (pid log marker : option string) : file -> option string :=
  fun f =>
    match f with
    | PID_FILE => pid
    | LOG_FILE => log
    | STARTUP_MARKER_FILE => marker
    | ERROR_LOG_FILE => None
    | LOG_DIR => Some EmptyString
    end.

Definition no_fault : fsop -> file -> bool := fun _ _ => false.

(** Process 4242 is there and takes every signal; nothing else runs. *)
Definition only_4242 : Z -> signal -> bool := fun p _ => p =? 4242.

(** The service runs as process 4242 and its PID file says so. *)
Definition w_running : world :=
  mkWorld (files (Some "4242") None None) only_4242 no_fault 5000.

(** Process 4242 answers the probe but refuses SIGTERM. *)
Definition w_unstoppable : world :=
  mkWorld (files (Some "4242") None None)
          (fun p sig => (p =? 4242) && negb (signal_eqb sig SIGTERM))
          no_fault 5000.

(** Nothing runs and no file is there. *)
Definition w_clean : world :=
  mkWorld (files None None None) (fun _ _ => false) no_fault 5000.

(** Nothing runs, and the PID file is garbage. *)
Definition w_garbage : world :=
  mkWorld (files (Some "not-a-pid") None None) (fun _ _ => false) no_fault 5000.

(** The child about to be spawned, 5000, will live. *)
Definition w_fresh (log marker : option string) : world :=
  mkWorld (files None log marker) (fun p _ => p =? 5000) no_fault 5000.

(** The PID file names process 4242 and a marker is left over, but
    nothing runs. *)
Definition w_stale : world :=
  mkWorld (files (Some "4242") None (Some sample_marker_text))
          (fun _ _ => false) no_fault 5000.

Definition failure_log : string := "ERROR Failed to start server".

(** The log already holds a failure line, and the child about to be
    spawned will be gone at the first poll. *)
Definition w_failed_and_gone : world :=
  mkWorld (files None (Some failure_log) None) (fun _ _ => false) no_fault 5000.

(** An environment in which every process is gone from the move number
    [k] on (the first move has number 0). *)
Definition gone_at (k : nat) : environment :=
  fun n =>
    mkEnv (fun w =>
             if Nat.eqb n k
             then mkWorld (fs w) (fun _ _ => false) (faulty w) (child_pid w)
             else w)
          None.

(** A log whose first line is a failure line, followed by [n] lines that
    say nothing. *)
Definition log_with_old_failure (n : nat) : string :=
  join_lines (failure_log :: repeat "INFO request served" n).

(** A controller that has not run anything yet, in a world where the
    child 5000 lives, the log holds a failure line and the marker of the
    child is in place. *)
Definition marker_state : mstate :=
  initial (w_fresh (Some failure_log) (Some sample_marker_text)).

(** The controller right after a background launch, in a world where the
    child lives and the log holds a failure line. *)
Definition launched_state : mstate :=
  snd (start true (initial (w_fresh (Some failure_log) None))).

(** ** Vocabulary of the statements *)

(** The state [s] with one more line on the console. *)
Definition say (m : msg) (s : mstate) : mstate := snd (log m s).

(** What the registry answers in the world [w]: [getStatus] as a function
    of the world. *)
Definition registry (w : world) : status_t :=
  match fs w PID_FILE with
  | Some content =>
      if faulty w OpRead PID_FILE then NotRunning
      else match parseInt (trim content) with
           | Num z => if truthy (Num z) && kill_ok w z SIG0
                      then Running z else NotRunning
           | NaN => NotRunning
           end
  | None => NotRunning
  end.

(** Neither removal of [removePidFile] is refused by the file system. *)
Definition unlink_works (w : world) : Prop :=
  faulty w OpUnlink PID_FILE = false /\ faulty w OpUnlink STARTUP_MARKER_FILE = false.

(** Neither the PID file nor the marker file exists. *)
Definition records_gone (w : world) : Prop :=
  fs w PID_FILE = None /\ fs w STARTUP_MARKER_FILE = None.

(** [s'] differs from [s] at most by the world and the console. *)
Definition keeps_control (s s' : mstate) : Prop :=
  kills s' = kills s /\ launched s' = launched s /\ execs s' = execs s /\
  timers s' = timers s /\ next_tid s' = next_tid s /\ now s' = now s /\
  fg_child s' = fg_child s /\ follower s' = follower s.

(** [w'] differs from [w] at most by the PID file and the marker file. *)
Definition keeps_os (w w' : world) : Prop :=
  kill_ok w' = kill_ok w /\ faulty w' = faulty w /\ child_pid w' = child_pid w /\
  fs w' LOG_FILE = fs w LOG_FILE /\ fs w' ERROR_LOG_FILE = fs w ERROR_LOG_FILE.

(** [s'] is [s] with the line [m] on the console and nothing else
    touched, timers apart. *)
Definition quiet_exit (s s' : mstate) (m : msg) : Prop :=
  wd s' = wd s /\ kills s' = kills s /\ launched s' = launched s /\
  now s' = now s /\ console s' = (console s ++ [m])%list.

(** The timer [t] is all that keeps the loop alive. *)
Definition polling (s : mstate) (t : timer) : Prop :=
  timers s = [t] /\ fg_child s = None /\ follower s = false.

(** The state once the only timer [t] has expired and, for an interval,
    has been armed again with the closure [cb]. *)
Definition after_expiry (s : mstate) (t : timer) (cb : closure) : mstate :=
  mkState (wd s) (kills s) (console s) (launched s) (execs s)
          (match period t with
           | Some p => [mkTimer (tid t) (due t + p) (Some p) cb]
           | None => []
           end)
          (next_tid s) (due t) (fg_child s) (follower s).

(** A tick that sees nothing: the child is alive, there is no valid
    marker, and the log shows neither success nor failure. *)
Definition quiet (JSON_parse : string -> option json) (w : world) (child : Z)
  : Prop :=
  kill_ok w child SIG0 = true /\ marker_valid JSON_parse w child = false /\
  log_success w = false /\ log_failure w = false.

(** The labels of the [switch] in [main]. *)
Definition known_command (command : option string) : bool :=
  match command with
  | Some c =>
      existsb (String.eqb c)
        ["start"; "s"; "stop"; "halt"; "restart"; "r"; "status"; "st";
         "logs"; "log"; "l"; "help"; "--help"; "-h"; "h"]
  | None => false
  end.

(** ** Further vocabulary and sample data *)

(** Every character of [s] is a decimal digit. *)
Fixpoint all_decimal (s : string) : bool :=
  match s with
  | EmptyString => true
  | String c t => isSome (digit 10 c) && all_decimal t
  end.

(** The environment [env] after its first [m] moves. *)
Fixpoint shiftn (m : nat) (env : environment) : environment :=
  match m with
  | O => env
  | S k => shiftn k (shift env)
  end.

(** The file system refuses the operation [op] on the file [f], and
    nothing else. *)
Definition only_fault (op : fsop) (f : file) : fsop -> file -> bool :=
  fun o g =>
    match o, op with
    | OpRead, OpRead | OpWrite, OpWrite | OpUnlink, OpUnlink
    | OpOpen, OpOpen | OpMkdir, OpMkdir => file_eqb g f
    | _, _ => false
    end.

(** The child about to be spawned, 5000, will live, but the PID file
    cannot be written. *)
Definition w_pid_unwritable : world :=
  mkWorld (files None None None) (fun p _ => p =? 5000)
          (only_fault OpWrite PID_FILE) 5000.

(** Nothing runs, and the error log cannot be opened. *)
Definition w_log_unopenable : world :=
  mkWorld (files None None None) (fun _ _ => false)
          (only_fault OpOpen ERROR_LOG_FILE) 5000.

(** Nothing runs; a PID file and a marker are left over, and the PID file
    cannot be removed. *)
Definition w_pid_locked : world :=
  mkWorld (files (Some "4242") None (Some sample_marker_text))
          (fun _ _ => false) (only_fault OpUnlink PID_FILE) 5000.

(** An environment in which the child writes its marker in the move
    number [k]. *)
Definition marker_at (k : nat) : environment :=
  fun n =>
    mkEnv (fun w =>
             if Nat.eqb n k
             then fs_set STARTUP_MARKER_FILE (Some sample_marker_text) w
             else w)
          None.

(** * Properties *)

(** ** The helpers on strings and numbers, on examples *)

Example parseInt_plain : parseInt "12345" = Num 12345.
Proof. reflexivity. Qed.
Example parseInt_suffix : parseInt "  42abc" = Num 42.
Proof. reflexivity. Qed.
Example parseInt_hex : parseInt "0x1F" = Num 31.
Proof. reflexivity. Qed.
Example parseInt_empty : parseInt EmptyString = NaN.
Proof. reflexivity. Qed.
Example parseInt_words : parseInt "abc" = NaN.
Proof. reflexivity. Qed.
Example parseInt_signed : parseInt " -5" = Num (-5).
Proof. reflexivity. Qed.
Example toString_pid : toString 4242 = "4242" /\ toString 0 = "0" /\ toString (-17) = "-17".
Proof. repeat split; reflexivity. Qed.
Example split_three :
  split_lines (String "a" (String LF (String "b" (String LF EmptyString))))
  = ["a"; "b"; EmptyString].
Proof. reflexivity. Qed.

(** ** The registry and the removal of the records *)

Ltac open_prims :=
  unfold bind, ret, try_catch, throw, exit, existsSync, readFileSync, writeFileSync,
    unlinkSync, openSync, kill, log, isSome, set_wd, set_timers, fs_set in *.

(** [removePidFile] never throws; it changes the console and at most the two
    records, deletes both when no unlink is refused, and running it again
    changes nothing more. *)
Lemma removePidFile_spec s :
  exists s', removePidFile s = (Val tt, s') /\ keeps_control s s' /\
             keeps_os (wd s) (wd s') /\
             (unlink_works (wd s) -> records_gone (wd s')) /\
             (fs (wd s') PID_FILE = fs (wd s) PID_FILE \/ fs (wd s') PID_FILE = None) /\
             (forall s2, wd s2 = wd s' -> wd (snd (removePidFile s2)) = wd s').
Proof.
  destruct s as [[f k fl cp] ks c l x ts nt t0 fg fo].
  unfold removePidFile, unlink_works, records_gone, keeps_control, keeps_os.
  open_prims; cbn.
  destruct (f PID_FILE) eqn:Ep; destruct (fl OpUnlink PID_FILE) eqn:Fp; cbn;
    destruct (f STARTUP_MARKER_FILE) eqn:Em;
    destruct (fl OpUnlink STARTUP_MARKER_FILE) eqn:Fm;
    repeat (progress (cbn; rewrite ?Ep, ?Fp, ?Em, ?Fm));
    eexists; (split; [reflexivity|]);
    repeat (progress (cbn; rewrite ?Ep, ?Fp, ?Em, ?Fm));
    (split; [tauto|]); (split; [tauto|]); (split; [intuition congruence|]);
    (split; [tauto|]);
    intros [w2 ? ? ? ? ? ? ? ? ?] E; cbn in E; subst w2;
    repeat (progress (cbn; rewrite ?Ep, ?Fp, ?Em, ?Fm)); reflexivity.
Qed.

Ltac use_eqs :=
  repeat match goal with
         | H : ?l = _ |- context [?l] => rewrite H
         end.
Ltac simp := repeat (progress (cbn; use_eqs)).

Section Polls.
Variable JSON_parse : string -> option json.

Local Opaque removePidFile includes has_failure_mark recent Nat.leb.

(** *** One tick of each poll

    The readiness callback does what the detector of the specification
    decides for its tick. *)
Lemma checkStartup_spec self child n s :
  match spec_tick JSON_parse (wd s) child (S n) with
  | POLLING => checkStartup JSON_parse self child n s = (Val (S n), s)
  | SUCCESS =>
      exists s' m, checkStartup JSON_parse self child n s = (Exit 0, s') /\
                   quiet_exit s s' m /\
                   (m = MStartedByLog \/ exists port, m = MStartedByMarker port)
  | TIMEOUT =>
      exists s', checkStartup JSON_parse self child n s = (Exit 0, s') /\
                 quiet_exit s s' MStartupTimeout
  | FAILURE =>
      exists s', checkStartup JSON_parse self child n s = (Exit 1, s') /\
                 keeps_os (wd s) (wd s') /\
                 (unlink_works (wd s) -> records_gone (wd s')) /\
                 launched s' = launched s /\ now s' = now s /\
                 kills s' = (kills s ++
                   (if kill_ok (wd s) child SIG0
                    then [(child, SIGTERM, kill_ok (wd s) child SIGTERM)]
                    else []))%list
  end.
Proof.
  unfold spec_tick, marker_valid, log_success, log_failure, recent_log.
  unfold checkStartup, isProcessRunning, parse_json, get_prop, clearInterval.
  unfold quiet_exit.
  open_prims.
  destruct (kill_ok (wd s) child SIG0) eqn:K; simp.
  2:{ match goal with |- context [removePidFile ?x] =>
        destruct (removePidFile_spec x) as (s' & E & C & O & G & _ & _) end.
      rewrite E; cbn. exists s'; split; [reflexivity|].
      cbn in *. rewrite app_nil_r. unfold keeps_control in C; cbn in C. tauto. }
  destruct (fs (wd s) STARTUP_MARKER_FILE) as [text|] eqn:Em; simp;
    [ destruct (faulty (wd s) OpRead STARTUP_MARKER_FILE) eqn:Fm; simp;
      [ | destruct (JSON_parse text) as [v|] eqn:Ej; simp;
          [ destruct v; simp;
            try (destruct (strict_eq_int (lookup_prop "pid" props) child) eqn:Eq; simp)
          | ] ]
    | ];
    try (solve [do 2 eexists; split; [reflexivity|]; cbn; eauto 10]);
    (destruct (fs (wd s) LOG_FILE) as [content|] eqn:El; simp;
     [ destruct (faulty (wd s) OpRead LOG_FILE) eqn:Fl; simp;
       [ | destruct (includes (recent content) SUCCESS_MARK) eqn:Is; simp;
           [ | destruct (has_failure_mark (recent content)) eqn:If; simp ] ]
     | ]);
    try (solve [do 2 eexists; split; [reflexivity|]; cbn; eauto 10]);
    try (solve [destruct (maxChecks <=? S n)%nat eqn:late; simp;
                [eexists; split; [reflexivity|]; cbn; tauto | reflexivity]]).
  all: match goal with |- context [removePidFile ?x] =>
         destruct (removePidFile_spec x) as (s' & E & C & O & G & _ & _) end;
       rewrite E; cbn;
       destruct O as (Ok & Of & Oc & Ol & Oe);
       destruct C as (Ck & Cl & _ & _ & _ & Cn & _); cbn in *;
       rewrite Ok;
       destruct (kill_ok (wd s) child SIGTERM); cbn;
       (eexists; split; [reflexivity|]); cbn; rewrite Ck, Cl, Cn;
       unfold keeps_os; tauto.
Qed.

(** With one timer and no listener, a turn of the loop fires that timer,
    whatever arrives. *)
Lemma turn_polling e s t :
  polling s t -> turn JSON_parse e s = fire JSON_parse t (set_wd (change e) s).
Proof.
  destruct s; unfold polling; cbn; intros (-> & -> & ->).
  unfold turn; cbn. destruct (arrival e) as [[]|]; reflexivity.
Qed.

Lemma polling_not_drained s t : polling s t -> drained s = false.
Proof. destruct s; unfold polling; cbn; intros (-> & _); reflexivity. Qed.

Lemma run_drained fuel env s :
  drained s = true -> run JSON_parse fuel env s = Finished 0 s.
Proof. intros D; destruct fuel; cbn; rewrite D; reflexivity. Qed.

(** One turn of the loop while the readiness poll is pending. *)
Lemma startup_turn e s id d p child n :
  polling s (mkTimer id d (Some p) (CheckStartup child n)) ->
  let s1 := set_wd (change e) s in
  match spec_tick JSON_parse (wd s1) child (S n) with
  | POLLING =>
      turn JSON_parse e s =
      (Val tt, after_expiry s1 (mkTimer id d (Some p) (CheckStartup child n))
                            (CheckStartup child (S n)))
  | SUCCESS =>
      exists s' m, turn JSON_parse e s = (Exit 0, s') /\
                   quiet_exit (after_expiry s1 (mkTimer id d (Some p) (CheckStartup child n))
                                            (CheckStartup child n)) s' m /\
                   (m = MStartedByLog \/ exists port, m = MStartedByMarker port)
  | TIMEOUT =>
      exists s', turn JSON_parse e s = (Exit 0, s') /\
                 quiet_exit (after_expiry s1 (mkTimer id d (Some p) (CheckStartup child n))
                                          (CheckStartup child n)) s' MStartupTimeout
  | FAILURE =>
      exists s', turn JSON_parse e s = (Exit 1, s') /\
                 keeps_os (wd s1) (wd s') /\
                 (unlink_works (wd s1) -> records_gone (wd s')) /\
                 launched s' = launched s /\ now s' = d /\
                 kills s' = (kills s ++
                   (if kill_ok (wd s1) child SIG0
                    then [(child, SIGTERM, kill_ok (wd s1) child SIGTERM)]
                    else []))%list
  end.
Proof.
  intros P s1. rewrite (turn_polling e s _ P).
  destruct s as [w ks c l x ts nt t0 fg fo]; destruct P as (T & G & F); cbn in *; subst.
  unfold fire, expire; unfold bind at 1; cbn. rewrite Nat.eqb_refl; cbn.
  match goal with |- context [checkStartup _ _ _ _ ?x] =>
    pose proof (checkStartup_spec id child n x) as H end.
  cbn in H.
  destruct (spec_tick JSON_parse (change e w) child (S n)).
  - unfold bind; rewrite H; unfold recapture, after_expiry, set_timers; cbn.
    rewrite Nat.eqb_refl. reflexivity.
  - destruct H as (s' & m & E & H); exists s', m; unfold bind; rewrite E; auto.
  - destruct H as (s' & E & H); exists s'; unfold bind; rewrite E; auto.
  - destruct H as (s' & E & H); exists s'; unfold bind; rewrite E; auto.
Qed.

(** One turn of the loop while the exit poll is pending. *)
Lemma exit_turn e s id d p pid n :
  polling s (mkTimer id d (Some p) (CheckExit pid n)) ->
  let s1 := set_wd (change e) s in
  let finished s' extra :=
    timers s' = [] /\ fg_child s' = None /\ follower s' = false /\
    kills s' = (kills s ++ extra)%list /\ launched s' = launched s /\
    now s' = d /\ keeps_os (wd s1) (wd s') /\
    (unlink_works (wd s1) -> records_gone (wd s')) in
  if kill_ok (wd s1) pid SIG0 then
    if (maxAttempts <=? S n)%nat then
      exists s', turn JSON_parse e s = (Val tt, s') /\
                 finished s' [(pid, SIGKILL, kill_ok (wd s1) pid SIGKILL)]
    else
      turn JSON_parse e s =
      (Val tt, after_expiry s1 (mkTimer id d (Some p) (CheckExit pid n))
                            (CheckExit pid (S n)))
  else
    exists s', turn JSON_parse e s = (Val tt, s') /\ finished s' [].
Proof.
  intros P s1 finished. rewrite (turn_polling e s _ P).
  destruct s as [w ks c l x ts nt t0 fg fo]; destruct P as (T & G & F).
  cbn in T, G, F; subst. subst finished s1.
  unfold fire, expire, checkExit, isProcessRunning, clearInterval, recapture.
  open_prims; cbn. rewrite Nat.eqb_refl; cbn.
  destruct (kill_ok (change e w) pid SIG0) eqn:K; simp.
  - destruct (maxAttempts <=? S n)%nat eqn:late; simp.
    + rewrite Nat.eqb_refl; cbn.
      destruct (kill_ok (change e w) pid SIGKILL) eqn:K9; simp.
      all: match goal with |- context [removePidFile ?x] =>
             destruct (removePidFile_spec x) as (s' & E & C & O & G & _ & _) end;
           rewrite E; cbn; (eexists; split; [reflexivity|]); cbn;
           unfold keeps_control in C; cbn in C;
           destruct C as (-> & -> & _ & -> & _ & -> & -> & ->); cbn; tauto.
    + rewrite Nat.eqb_refl; reflexivity.
  - rewrite Nat.eqb_refl; cbn.
    match goal with |- context [removePidFile ?x] =>
      destruct (removePidFile_spec x) as (s' & E & C & O & G & _ & _) end.
    rewrite E; cbn. (eexists; split; [reflexivity|]); cbn.
    unfold keeps_control in C; cbn in C.
    destruct C as (-> & -> & _ & -> & _ & -> & -> & ->); cbn.
    rewrite app_nil_r. tauto.
Qed.

Lemma polling_after_expiry s t cb p :
  period t = Some p -> fg_child s = None -> follower s = false ->
  polling (after_expiry s t cb) (mkTimer (tid t) (due t + p) (Some p) cb).
Proof.
  intros P G F. unfold polling, after_expiry; cbn. rewrite P. auto.
Qed.

(** *** The exit poll to its end

    Under every environment the exit poll is over within [maxAttempts]
    turns, and the records have then been removed. *)
Lemma stop_poll_finishes fuel :
  forall env s id d p pid n,
    polling s (mkTimer id d (Some p) (CheckExit pid n)) ->
    (n < maxAttempts)%nat -> (maxAttempts - n <= fuel)%nat ->
    exists s', run JSON_parse fuel env s = Finished 0 s' /\
               drained s' = true /\ launched s' = launched s /\
               (unlink_works (wd s') -> records_gone (wd s')).
Proof.
  induction fuel as [|fuel IH]; intros env s id d p pid n P Hn Hf.
  - unfold maxAttempts in *; lia.
  - cbn [run]. rewrite (polling_not_drained _ _ P).
    pose proof (exit_turn (env O) s id d p pid n P) as T; cbn zeta in T.
    destruct (kill_ok (wd (set_wd (change (env O)) s)) pid SIG0).
    + destruct (maxAttempts <=? S n)%nat eqn:L.
      * destruct T as (s' & E & Ht & Hg & Hfo & _ & Hl & _ & (_ & Of & _) & G).
        rewrite E; cbn [settle].
        assert (D : drained s' = true) by (unfold drained; rewrite Ht, Hg, Hfo; reflexivity).
        rewrite (run_drained _ _ _ D). exists s'. repeat split; auto.
        all: apply G; unfold unlink_works in *; rewrite <- Of; tauto.
      * rewrite T; cbn [settle].
        apply Nat.leb_gt in L.
        destruct P as (_ & G & F).
        destruct (IH (shift env)
                     (after_expiry (set_wd (change (env O)) s)
                        (mkTimer id d (Some p) (CheckExit pid n))
                        (CheckExit pid (S n)))
                     id (d + p) p pid (S n)) as (s' & R & D & Hl & Hr).
        -- apply (polling_after_expiry _ (mkTimer id d (Some p) (CheckExit pid n)));
             destruct s; auto.
        -- exact L.
        -- unfold maxAttempts in *; lia.
        -- exists s'. destruct s; auto.
    + destruct T as (s' & E & Ht & Hg & Hfo & _ & Hl & _ & (_ & Of & _) & G).
      rewrite E; cbn [settle].
      assert (D : drained s' = true) by (unfold drained; rewrite Ht, Hg, Hfo; reflexivity).
      rewrite (run_drained _ _ _ D). exists s'. repeat split; auto.
      all: apply G; unfold unlink_works in *; rewrite <- Of; tauto.
Qed.

(** While the process stays alive the poll runs all its attempts and then
    sends SIGKILL once. *)
Lemma stop_poll_forced m :
  forall env s id d p pid n fuel,
    polling s (mkTimer id d (Some p) (CheckExit pid n)) ->
    (n + m = maxAttempts)%nat -> (0 < m)%nat ->
    (forall k, (k < m)%nat -> kill_ok (drift env (S k) (wd s)) pid SIG0 = true) ->
    (m <= fuel)%nat ->
    exists s', run JSON_parse fuel env s = Finished 0 s' /\
               kills s' = (kills s ++
                 [(pid, SIGKILL, kill_ok (drift env m (wd s)) pid SIGKILL)])%list /\
               launched s' = launched s /\
               now s' = d + p * (Z.of_nat m - 1) /\
               keeps_os (drift env m (wd s)) (wd s') /\
               (unlink_works (drift env m (wd s)) -> records_gone (wd s')).
Proof.
  induction m as [|m IH]; intros env s id d p pid n fuel P Hn Hm Alive Hf; [lia|].
  destruct fuel as [|fuel]; [lia|].
  cbn [run]. rewrite (polling_not_drained _ _ P).
  pose proof (exit_turn (env O) s id d p pid n P) as T; cbn zeta in T.
  assert (W : wd (set_wd (change (env O)) s) = drift env 1 (wd s)) by (destruct s; reflexivity).
  rewrite W in T. rewrite (Alive O) in T by lia.
  destruct (maxAttempts <=? S n)%nat eqn:L.
  - apply Nat.leb_le in L. assert (m = O) by lia; subst m.
    destruct T as (s' & E & Ht & Hg & Hfo & Hk & Hl & Hnow & Os & G).
    rewrite E; cbn [settle].
    assert (D : drained s' = true) by (unfold drained; rewrite Ht, Hg, Hfo; reflexivity).
    rewrite (run_drained _ _ _ D). exists s'.
    repeat split; auto; try apply Os; try (apply G; assumption).
    rewrite Hnow; cbn; lia.
  - apply Nat.leb_gt in L. rewrite T; cbn [settle].
    destruct P as (_ & G & F).
    edestruct (IH (shift env) (after_expiry (set_wd (change (env O)) s)
                                 (mkTimer id d (Some p) (CheckExit pid n))
                                 (CheckExit pid (S n)))
                  id (d + p) p pid (S n) fuel) as (s' & R & Hk & Hl & Hnow & Os & Hr).
    + apply (polling_after_expiry _ (mkTimer id d (Some p) (CheckExit pid n))); auto.
      all: destruct s; auto.
    + lia.
    + unfold maxAttempts in *; lia.
    + intros k Hk. cbn [after_expiry wd]. rewrite W. apply (Alive (S k)). lia.
    + lia.
    + cbn [after_expiry wd kills launched] in *. rewrite W in *.
      exists s'. split; [exact R|].
      replace (drift env (S m) (wd s)) with (drift (shift env) m (drift env 1 (wd s)))
        by reflexivity.
      split; [exact Hk|]. split; [exact Hl|].
      split; [rewrite Hnow, Nat2Z.inj_succ; ring|].
      split; [exact Os | exact Hr].
Qed.
End Polls.

(** ** The registry *)

(** [getStatus] answers [registry], and leaves the state alone when it
    answers running. *)
Lemma getStatus_registry s :
  exists s1, getStatus s = (Val (registry (wd s)), s1) /\ wd s1 = wd s /\
             keeps_control s s1 /\
             (forall pid, registry (wd s) = Running pid -> s1 = s).
Proof.
  unfold getStatus, getPid, isProcessRunning, keeps_control, registry; open_prims.
  destruct (fs (wd s) PID_FILE) as [c|] eqn:Ep; simp.
  - destruct (faulty (wd s) OpRead PID_FILE) eqn:Fr; simp.
    + eexists; split; [reflexivity|]; cbn; intuition discriminate.
    + destruct (parseInt (trim c)) as [|z] eqn:Ez; simp.
      * eexists; split; [reflexivity|]; cbn; intuition discriminate.
      * destruct (z =? 0) eqn:Z0; simp.
        -- eexists; split; [reflexivity|]; cbn; intuition discriminate.
        -- destruct (kill_ok (wd s) z SIG0) eqn:K; simp;
             eexists; (split; [reflexivity|]); cbn; intuition discriminate.
  - eexists; split; [reflexivity|]; cbn; intuition discriminate.
Qed.

Lemma getStatus_fst s : fst (getStatus s) = Val (registry (wd s)).
Proof. destruct (getStatus_registry s) as (s1 & E & _); rewrite E; reflexivity. Qed.

Lemma registry_running w pid :
  registry w = Running pid -> pid <> 0 /\ kill_ok w pid SIG0 = true /\ fs w PID_FILE <> None.
Proof.
  unfold registry. destruct (fs w PID_FILE); [|discriminate].
  destruct (faulty w OpRead PID_FILE); [discriminate|].
  destruct (parseInt (trim s)) as [|z]; [discriminate|].
  cbn. destruct (z =? 0) eqn:Z0; cbn; [discriminate|].
  destruct (kill_ok w z SIG0) eqn:K; [|discriminate].
  intros [= <-]. repeat split; auto; try discriminate.
  intro; subst; discriminate.
Qed.

Lemma registry_stays_down w w' :
  registry w = NotRunning ->
  (fs w' PID_FILE = fs w PID_FILE \/ fs w' PID_FILE = None) ->
  kill_ok w' = kill_ok w -> faulty w' = faulty w ->
  registry w' = NotRunning.
Proof.
  unfold registry; intros R [E|E] K F; rewrite E, ?K, ?F; auto.
Qed.

(** Claim C7.  [stop] is idempotent when nothing runs.  In every state in
    which the registry ([getStatus]) reports not-running, [stop] returns
    [false] (the not-running outcome) without throwing, sends no signal and
    arms no timer, and runs the removal of the PID file and of the marker
    file, which deletes both whenever the file system does not refuse the
    unlink.  Afterwards the registry still reports not-running, and a second
    [stop] returns the same outcome and leaves the world as it is. *)
Theorem stop_when_not_running s :
  fst (getStatus s) = Val NotRunning ->
  exists s',
    stop s = (Val false, s') /\
    kills s' = kills s /\ timers s' = timers s /\ launched s' = launched s /\
    (unlink_works (wd s) -> records_gone (wd s')) /\
    fst (getStatus s') = Val NotRunning /\
    exists s'', stop s' = (Val false, s'') /\ wd s'' = wd s' /\ kills s'' = kills s'.
Proof.
  intros H. rewrite getStatus_fst in H. injection H as R.
  assert (STOP : forall s0, registry (wd s0) = NotRunning ->
            exists s1 s', wd s1 = wd s0 /\ keeps_control s0 s1 /\
              stop s0 = (Val false, s') /\
              removePidFile (say MNotRunning s1) = (Val tt, s')).
  { intros s0 R0. destruct (getStatus_registry s0) as (s1 & E & W & C & _).
    rewrite R0 in E. unfold stop, bind. rewrite E. cbn.
    destruct (removePidFile_spec (say MNotRunning s1)) as (s' & E' & _).
    exists s1, s'. unfold say in *; cbn in *. rewrite E'. auto. }
  destruct (STOP s R) as (s1 & s' & W1 & C1 & E & RM).
  destruct (removePidFile_spec (say MNotRunning s1)) as (s2 & E2 & C2 & O2 & G2 & P2 & I2).
  rewrite RM in E2; injection E2 as <-.
  unfold say in *; cbn in *. rewrite W1 in *.
  unfold keeps_control in *; cbn in *.
  destruct C1 as (K1 & L1 & X1 & T1 & N1 & NW1 & F1 & FO1).
  destruct C2 as (K2 & L2 & X2 & T2 & N2 & NW2 & F2 & FO2).
  destruct O2 as (Ok & Of & Oc & Ol & Oe).
  assert (R' : registry (wd s') = NotRunning)
    by (apply (registry_stays_down (wd s)); auto).
  exists s'. split; [exact E|]. split; [congruence|]. split; [congruence|].
  split; [congruence|]. split; [exact G2|]. split; [rewrite getStatus_fst, R'; reflexivity|].
  destruct (STOP s' R') as (s3 & s'' & W3 & C3 & E3 & RM3).
  exists s''. split; [exact E3|].
  pose proof (I2 (say MNotRunning s3)) as I. unfold say in I; cbn in I.
  specialize (I W3). unfold say in RM3; cbn in RM3. rewrite RM3 in I. cbn in I.
  split; [exact I|].
  destruct (removePidFile_spec (say MNotRunning s3)) as (s4 & E4 & C4 & _).
  unfold say in E4; cbn in E4. rewrite RM3 in E4; injection E4 as <-.
  unfold keeps_control in *; cbn in *. destruct C3 as (K3 & _). destruct C4 as (K4 & _).
  congruence.
Qed.

Opaque removePidFile toString.

(** ** [stop] and [start], case by case *)

(** [stop] when the registry reports not-running. *)
Lemma stop_idle s :
  registry (wd s) = NotRunning ->
  exists s', stop s = (Val false, s') /\ keeps_control s s' /\
             (unlink_works (wd s) -> records_gone (wd s')).
Proof.
  intros R. destruct (getStatus_registry s) as (s1 & E & W & C & _).
  rewrite R in E. unfold stop, bind. rewrite E. cbn.
  destruct (removePidFile_spec (say MNotRunning s1)) as (s' & E' & C' & _ & G & _).
  unfold say in *; cbn in *. rewrite E'. exists s'. split; [reflexivity|].
  rewrite W in G. split; [|exact G].
  unfold keeps_control in *; cbn in *. intuition congruence.
Qed.

Lemma drained_keeps s s' : keeps_control s s' -> drained s = true -> drained s' = true.
Proof.
  unfold keeps_control, drained. intros (_ & _ & _ & -> & _ & _ & -> & ->). auto.
Qed.


(** What [stop] does on a running process. *)
Lemma stop_running s pid :
  registry (wd s) = Running pid ->
  if kill_ok (wd s) pid SIGTERM then
    stop s =
    (Val true,
     mkState (wd s) (kills s ++ [(pid, SIGTERM, true)]) (console s ++ [MStopping pid])
             (launched s) (execs s)
             (timers s ++ [mkTimer (next_tid s) (now s + 1000) (Some 1000) (CheckExit pid 0)])
             (S (next_tid s)) (now s) (fg_child s) (follower s))
  else
    exists s', stop s = (Val false, s') /\
               keeps_os (wd s) (wd s') /\
               kills s' = (kills s ++ [(pid, SIGTERM, false)])%list /\
               timers s' = timers s /\ fg_child s' = fg_child s /\
               follower s' = follower s /\ launched s' = launched s /\
               (unlink_works (wd s) -> records_gone (wd s')).
Proof.
  intros R. destruct (getStatus_registry s) as (s1 & E & _ & _ & Same).
  rewrite (Same pid R) in E. rewrite R in E.
  unfold stop, bind at 1. rewrite E. unfold setInterval, add_timer. open_prims.
  destruct (kill_ok (wd s) pid SIGTERM) eqn:K; simp; [reflexivity|].
  match goal with |- context [removePidFile ?x] =>
    destruct (removePidFile_spec x) as (s' & E' & C & O & G & _) end.
  rewrite E'; cbn. exists s'. split; [reflexivity|].
  unfold keeps_control in C; cbn in C. tauto.
Qed.

(** A [stop] that returns [true] has left the exit poll pending and the
    world as it was. *)
Lemma stop_accepted s s0 :
  drained s = true -> stop s = (Val true, s0) ->
  exists pid id d,
    polling s0 (mkTimer id d (Some 1000) (CheckExit pid 0)) /\
    launched s0 = launched s /\ wd s0 = wd s.
Proof.
  intros D E.
  destruct (registry (wd s)) as [pid|] eqn:R.
  - pose proof (stop_running s pid R) as H.
    destruct (kill_ok (wd s) pid SIGTERM).
    + rewrite H in E. injection E as <-.
      exists pid, (next_tid s), (now s + 1000).
      destruct s as [w ks c l x ts nt t0 fg fo]; unfold drained in D; cbn in *.
      destruct ts; [|discriminate]. destruct fg; [discriminate|]. destruct fo; [discriminate|].
      unfold polling; cbn; auto.
    + destruct H as (s' & E' & _). rewrite E' in E. discriminate.
  - destruct (stop_idle s R) as (s' & E' & _).
    rewrite E' in E. discriminate.
Qed.

Section Stop.
Variable JSON_parse : string -> option json.


(** With the directory of the logs in place, [main] is its [switch]. *)
Lemma main_dispatch args s :
  fs (wd s) LOG_DIR <> None -> main args s = dispatch args s.
Proof.
  intros D. unfold main, ensureLogDir, bind, existsSync, isSome.
  destruct (fs (wd s) LOG_DIR); [reflexivity|congruence].
Qed.

Lemma cli_stop fuel env w :
  fs w LOG_DIR <> None ->
  cli JSON_parse fuel env ["stop"] w =
  settle (bind stop (fun _ => ret tt) (initial w)) (run JSON_parse fuel env).
Proof. intros D. unfold cli. rewrite main_dispatch by exact D. reflexivity. Qed.

(** Claim C3.  [stop] on a running process [pid] that takes SIGTERM and is
    still alive at each of the 30 polls, one second apart: [stop] returns
    [true], the loop ends 30000 ms later, the signals sent are SIGTERM and
    then exactly one SIGKILL, and the removal of the PID record runs after
    the SIGKILL whether [process.kill] accepted it or threw (the files are
    gone whenever the file system does not refuse the unlink). *)
Theorem stop_escalates env s pid fuel :
  drained s = true ->
  fst (getStatus s) = Val (Running pid) ->
  kill_ok (wd s) pid SIGTERM = true ->
  (forall k, (k < 30)%nat -> kill_ok (drift env (S k) (wd s)) pid SIG0 = true) ->
  (30 <= fuel)%nat ->
  exists s0 s',
    stop s = (Val true, s0) /\
    run JSON_parse fuel env s0 = Finished 0 s' /\
    kills s' = (kills s ++
                [(pid, SIGTERM, true);
                 (pid, SIGKILL, kill_ok (drift env 30 (wd s)) pid SIGKILL)])%list /\
    now s' = now s + 30000 /\
    (unlink_works (drift env 30 (wd s)) -> records_gone (wd s')).
Proof.
  intros D H T Alive F. rewrite getStatus_fst in H; injection H as R.
  pose proof (stop_running s pid R) as S0. rewrite T in S0.
  eexists. 
  match type of S0 with _ = (_, ?x) => set (s0 := x) in * end.
  destruct (stop_poll_forced JSON_parse 30 env s0 (next_tid s) (now s + 1000) 1000
              pid O fuel) as (s' & Rn & K & _ & N & _ & G); auto; try lia.
  - destruct s as [w ks c l x ts nt t0 fg fo]; unfold drained in D; cbn in D.
    destruct ts; [|discriminate]. destruct fg; [discriminate|].
    destruct fo; [discriminate|]. unfold polling; cbn; auto.
  - exists s'. split; [exact S0|]. split; [exact Rn|].
    split; [rewrite K; subst s0; cbn; rewrite <- app_assoc; reflexivity|].
    split; [rewrite N; lia|exact G].
Qed.
End Stop.


(** What [start] does when the registry reports not-running. *)
Lemma start_not_running daemon s :
  registry (wd s) = NotRunning ->
  exists r s',
    start daemon s = (r, s') /\
    ((r = Val true /\
      launched s' = (launched s ++ [child_pid (wd s)])%list /\
      kills s' = kills s /\ follower s' = follower s /\ now s' = now s /\
      child_pid (wd s') = child_pid (wd s) /\
      (faulty (wd s) OpWrite PID_FILE = false ->
       fs (wd s') PID_FILE = Some (toString (child_pid (wd s)))) /\
      if daemon then
        timers s' = (timers s ++ [mkTimer (next_tid s) (now s + 200) (Some 200)
                                         (CheckStartup (child_pid (wd s)) 0)])%list /\
        fg_child s' = fg_child s /\
        faulty (wd s) OpOpen LOG_FILE = false /\
        faulty (wd s) OpOpen ERROR_LOG_FILE = false
      else
        timers s' = timers s /\ fg_child s' = Some (child_pid (wd s)))
     \/
     (r = Exit 1 /\ daemon = true /\ launched s' = launched s /\
      (faulty (wd s) OpOpen LOG_FILE = true \/
       faulty (wd s) OpOpen ERROR_LOG_FILE = true))).
Proof.
  intros R. destruct (getStatus_registry s) as (s1 & E & W & C & _).
  rewrite R in E. unfold start, bind at 1. rewrite E.
  unfold keeps_control in C.
  destruct s1 as [w1 ks1 c1 l1 x1 ts1 nt1 t1 fg1 fo1]; cbn in *.
  destruct C as (-> & -> & -> & -> & -> & -> & -> & ->). subst w1.
  unfold writePid, spawn_service, setInterval, add_timer, set_fg_child.
  open_prims.
  destruct (fs (wd s) STARTUP_MARKER_FILE) eqn:Em;
    [destruct (faulty (wd s) OpUnlink STARTUP_MARKER_FILE) eqn:Fm|];
    destruct daemon; simp;
    try (destruct (faulty (wd s) OpOpen LOG_FILE) eqn:Fo1; simp;
         [| destruct (fs (wd s) LOG_FILE) eqn:El; simp;
            (destruct (faulty (wd s) OpOpen ERROR_LOG_FILE) eqn:Fo2; simp;
             [| destruct (fs (wd s) ERROR_LOG_FILE) eqn:Ee; simp])]);
    try (destruct (faulty (wd s) OpWrite PID_FILE) eqn:Fw; simp);
    try (match goal with |- context [removePidFile ?x] =>
           destruct (removePidFile_spec x) as (s' & E' & C' & _) end;
         rewrite E'; cbn; unfold keeps_control in C'; cbn in C';
         do 2 eexists; split; [reflexivity|]; right; intuition auto);
    try (do 2 eexists; split; [reflexivity|]; left; cbn; intuition (auto; discriminate)).
Qed.

Lemma drift_succ env m w :
  drift env (S m) w = drift (shift env) m (drift env 1 w).
Proof. reflexivity. Qed.

Lemma drift_keeps_pid env :
  (forall n w, fs (change (env n) w) PID_FILE = fs w PID_FILE) ->
  forall m w, fs (drift env m w) PID_FILE = fs w PID_FILE.
Proof.
  intros H m; revert env H; induction m as [|m IH]; intros env H w; cbn; [reflexivity|].
  rewrite IH; [apply H|]. intros n w'; apply (H (S n)).
Qed.

Section Readiness.
Variable JSON_parse : string -> option json.

(** *** The readiness poll to its end *)
Lemma quiet_tick w child t :
  quiet JSON_parse w child ->
  spec_tick JSON_parse w child t = if (maxChecks <=? t)%nat then TIMEOUT else POLLING.
Proof.
  intros (K & M & S & F). unfold spec_tick. rewrite K, M, S, F. reflexivity.
Qed.

(** Ticks that see nothing lead to the timeout at the last one. *)
Lemma startup_times_out m :
  forall env s id d p child n fuel,
    polling s (mkTimer id d (Some p) (CheckStartup child n)) ->
    (n + m = maxChecks)%nat -> (0 < m)%nat ->
    (forall k, (k < m)%nat -> quiet JSON_parse (drift env (S k) (wd s)) child) ->
    (m <= fuel)%nat ->
    exists s', run JSON_parse fuel env s = Finished 0 s' /\
               wd s' = drift env m (wd s) /\ kills s' = kills s /\
               launched s' = launched s /\
               now s' = d + p * (Z.of_nat m - 1) /\
               console s' = (console s ++ [MStartupTimeout])%list.
Proof.
  induction m as [|m IH]; intros env s id d p child n fuel P Hn Hm Q Hf; [lia|].
  destruct fuel as [|fuel]; [lia|].
  cbn [run]. rewrite (polling_not_drained _ _ P).
  pose proof (startup_turn JSON_parse (env O) s id d p child n P) as T; cbn zeta in T.
  assert (W : wd (set_wd (change (env O)) s) = drift env 1 (wd s)) by (destruct s; reflexivity).
  rewrite W in T. rewrite (quiet_tick _ _ _ (Q O ltac:(lia))) in T.
  destruct (maxChecks <=? S n)%nat eqn:L.
  - apply Nat.leb_le in L. assert (m = O) by lia; subst m.
    destruct T as (s' & E & Hw & Hk & Hl & Hnow & Hc).
    rewrite E; cbn [settle]. exists s'.
    destruct s; cbn in *. repeat split; auto. rewrite Hnow; lia.
  - apply Nat.leb_gt in L. rewrite T; cbn [settle].
    destruct P as (_ & G & F).
    destruct (IH (shift env) (after_expiry (set_wd (change (env O)) s)
                                 (mkTimer id d (Some p) (CheckStartup child n))
                                 (CheckStartup child (S n)))
                  id (d + p) p child (S n) fuel) as (s' & R & Hw & Hk & Hl & Hnow & Hc).
    + apply (polling_after_expiry _ (mkTimer id d (Some p) (CheckStartup child n))); auto.
      all: destruct s; auto.
    + lia.
    + unfold maxChecks in *; lia.
    + intros k Hk. cbn [after_expiry wd]. rewrite W. apply (Q (S k)). lia.
    + lia.
    + cbn [after_expiry wd kills launched console] in *. rewrite W in *.
      exists s'. split; [exact R|].
      rewrite drift_succ.
      split; [exact Hw|]. split; [destruct s; exact Hk|]. split; [destruct s; exact Hl|].
      split; [rewrite Hnow, Nat2Z.inj_succ; ring|]. destruct s; exact Hc.
Qed.

Lemma cli_start_daemon fuel env w :
  fs w LOG_DIR <> None ->
  cli JSON_parse fuel env ["start"; "-d"] w =
  settle (bind (start true) (fun _ => ret tt) (initial w)) (run JSON_parse fuel env).
Proof. intros D. unfold cli. rewrite main_dispatch by exact D. reflexivity. Qed.

(** Claim C5.  After a background launch, if at each of the 30 ticks, 200 ms
    apart, the child is alive, no valid marker is there and the log shows
    neither success nor failure, the controller exits with status 0 after
    6000 ms with the timeout message, has sent no signal, and the 30 ticks
    have written nothing: the world at the exit is the world left by the
    launch as the environment alone changed it, so the PID record is the
    one the launch wrote. *)
Theorem startup_soft_timeout env s s0 fuel :
  drained s = true ->
  start true s = (Val true, s0) ->
  (forall k, (k < 30)%nat ->
             quiet JSON_parse (drift env (S k) (wd s0)) (child_pid (wd s))) ->
  (30 <= fuel)%nat ->
  exists s',
    run JSON_parse fuel env s0 = Finished 0 s' /\
    now s' = now s + 6000 /\
    console s' = (console s0 ++ [MStartupTimeout])%list /\
    kills s' = kills s /\
    wd s' = drift env 30 (wd s0) /\
    ((forall n w', fs (change (env n) w') PID_FILE = fs w' PID_FILE) ->
     fs (wd s') PID_FILE = fs (wd s0) PID_FILE) /\
    (faulty (wd s) OpWrite PID_FILE = false ->
     fs (wd s0) PID_FILE = Some (toString (child_pid (wd s)))).
Proof.
  intros D E Q F.
  assert (R : registry (wd s) = NotRunning).
  { destruct (registry (wd s)) as [pid|] eqn:R; [|reflexivity].
    destruct (getStatus_registry s) as (s1 & E1 & _ & _ & Same).
    rewrite (Same pid R), R in E1.
    unfold start, bind in E. rewrite E1 in E. cbn in E. discriminate. }
  destruct (start_not_running true s R) as (r & s' & E' & H).
  rewrite E in E'. injection E' as <- <-.
  destruct H as [(_ & L & K & Fo & N & Cp & Wr & T & G & _)|(X & _)]; [|discriminate].
  assert (P : polling s0 (mkTimer (next_tid s) (now s + 200) (Some 200)
                                  (CheckStartup (child_pid (wd s)) 0))).
  { destruct s as [w ks c l x ts nt t0 fg fo]; unfold drained in D; cbn in *.
    destruct ts; [|discriminate]. destruct fg; [discriminate|].
    destruct fo; [discriminate|]. unfold polling; auto. }
  destruct (startup_times_out 30 env s0 _ _ _ _ O fuel P)
    as (s' & Rn & Hw & Hk & Hl & Hnow & Hc); auto; try lia.
  exists s'. split; [exact Rn|]. split; [rewrite Hnow; lia|].
  split; [exact Hc|]. split; [congruence|]. split; [exact Hw|].
  split; [|exact Wr].
  intros Keep. rewrite Hw. apply drift_keeps_pid. exact Keep.
Qed.

(** Claim C6, amended.  In a tick of the readiness poll in which the child
    is still alive, no valid marker is there, and the recent log lines hold
    a failure mark and no success mark, the detector fails the launch: the
    removal of the PID record runs (the files are gone whenever the file
    system does not refuse the unlink), exactly one SIGTERM is sent to the
    child, and the controller exits with status 1 whether or not
    [process.kill] threw. *)
Theorem failure_mark_detected env s id d p child n fuel :
  polling s (mkTimer id d (Some p) (CheckStartup child n)) ->
  kill_ok (change (env O) (wd s)) child SIG0 = true ->
  marker_valid JSON_parse (change (env O) (wd s)) child = false ->
  log_success (change (env O) (wd s)) = false ->
  log_failure (change (env O) (wd s)) = true ->
  exists s',
    run JSON_parse (S fuel) env s = Finished 1 s' /\
    kills s' = (kills s ++
      [(child, SIGTERM, kill_ok (change (env O) (wd s)) child SIGTERM)])%list /\
    (unlink_works (change (env O) (wd s)) -> records_gone (wd s')).
Proof.
  intros P K M S F.
  cbn [run]. rewrite (polling_not_drained _ _ P).
  pose proof (startup_turn JSON_parse (env O) s id d p child n P) as T; cbn zeta in T.
  assert (W : wd (set_wd (change (env O)) s) = change (env O) (wd s)) by (destruct s; reflexivity).
  rewrite W in T. unfold spec_tick in T. rewrite K, M, S, F in T. cbn in T.
  destruct T as (s' & E & _ & G & _ & _ & Hk).
  rewrite E; cbn [settle]. exists s'. auto.
Qed.

(** The detector of the specification decides the exit code. *)
Lemma detector_refines fuel :
  forall env s id d p child n,
    polling s (mkTimer id d (Some p) (CheckStartup child n)) ->
    exit_code (run JSON_parse fuel env s) =
    spec_exit_code (spec_detect JSON_parse env (wd s) child n fuel).
Proof.
  induction fuel as [|fuel IH]; intros env s id d p child n P.
  - cbn. rewrite (polling_not_drained _ _ P). reflexivity.
  - cbn [run spec_detect]. rewrite (polling_not_drained _ _ P).
    pose proof (startup_turn JSON_parse (env O) s id d p child n P) as T; cbn zeta in T.
    assert (W : wd (set_wd (change (env O)) s) = change (env O) (wd s)) by (destruct s; reflexivity).
    rewrite W in T.
    destruct (spec_tick JSON_parse (change (env O) (wd s)) child (S n)).
    + rewrite T; cbn [settle].
      destruct P as (_ & G & F).
      rewrite (IH (shift env) _ id (d + p) p child (S n)).
      * destruct s; reflexivity.
      * apply (polling_after_expiry _ (mkTimer id d (Some p) (CheckStartup child n)));
          destruct s; auto.
    + destruct T as (s' & m & E & _). rewrite E. reflexivity.
    + destruct T as (s' & E & _). rewrite E. reflexivity.
    + destruct T as (s' & E & _). rewrite E. reflexivity.
Qed.

(** The detector has left POLLING when the budget reaches [maxChecks]. *)
Lemma detector_decides budget :
  forall env w child n,
    (n < maxChecks)%nat -> (maxChecks <= n + budget)%nat ->
    spec_detect JSON_parse env w child n budget <> POLLING.
Proof.
  induction budget as [|b IH]; intros env w child n Hn H; [lia|].
  cbn [spec_detect].
  destruct (spec_tick JSON_parse (change (env O) w) child (S n)) eqn:T;
    try discriminate.
  apply IH; [|lia].
  unfold spec_tick in T.
  destruct (negb _); [discriminate|]. destruct (marker_valid _ _ _); [discriminate|].
  destruct (log_success _); [discriminate|]. destruct (log_failure _); [discriminate|].
  destruct (maxChecks <=? S n)%nat eqn:L; [discriminate|].
  apply Nat.leb_gt in L. exact L.
Qed.
End Readiness.


Section ExitCodes.
Variable JSON_parse : string -> option json.

Lemma mkdir_fault_exit fuel env args w :
  fs w LOG_DIR = None -> faulty w OpMkdir LOG_DIR = true ->
  cli JSON_parse fuel env args w = Finished 1 (initial w).
Proof.
  intros D F. unfold cli, main, ensureLogDir, mkdirSync, bind, existsSync, isSome.
  cbn. rewrite D; cbn. rewrite F. reflexivity.
Qed.

Lemma mkdir_creates fuel env args w :
  fs w LOG_DIR = None -> faulty w OpMkdir LOG_DIR = false ->
  cli JSON_parse fuel env args w =
  cli JSON_parse fuel env args (fs_set LOG_DIR (Some EmptyString) w).
Proof.
  intros D F. unfold cli, main, ensureLogDir, mkdirSync, bind, existsSync, isSome.
  cbn. rewrite D; cbn. rewrite F, D. reflexivity.
Qed.

(** *** The five ways a run of the controller ends *)
Lemma unknown_command_exit fuel env args w :
  fs w LOG_DIR <> None ->
  known_command (hd_error args) = false ->
  cli JSON_parse fuel env args w =
  Finished 1 (say MHelp (say (MUnknownCommand (hd_error args)) (initial w))).
Proof.
  intros D H. unfold cli. rewrite main_dispatch by exact D. unfold dispatch.
  destruct (hd_error args) as [c|]; cbn in H |- *.
  - repeat (apply orb_false_iff in H; destruct H as [?E H]).
    rewrite ?E, ?E0, ?E1, ?E2, ?E3, ?E4, ?E5, ?E6, ?E7, ?E8, ?E9, ?E10, ?E11, ?E12, ?E13.
    reflexivity.
  - reflexivity.
Qed.

Lemma stop_exit_code fuel env w :
  fs w LOG_DIR <> None ->
  (30 <= fuel)%nat -> exit_code (cli JSON_parse fuel env ["stop"] w) = Some 0.
Proof.
  intros D F. rewrite cli_stop by exact D. unfold bind.
  destruct (registry w) as [pid|] eqn:R.
  - pose proof (stop_running (initial w) pid R) as H; cbn in H.
    destruct (kill_ok w pid SIGTERM).
    + rewrite H. cbn [settle ret].
      match goal with |- context [run _ _ _ ?x] => set (s0 := x) end.
      destruct (stop_poll_finishes JSON_parse fuel env s0 O 1000 1000 pid O)
        as (s' & Rn & _); try (unfold maxAttempts; lia).
      * unfold polling; cbn; auto.
      * rewrite Rn; reflexivity.
    + destruct H as (s' & E & _ & _ & T & G & Fo & _).
      rewrite E. cbn [settle ret].
      rewrite run_drained; [reflexivity|].
      unfold drained. rewrite T, G, Fo. reflexivity.
  - destruct (stop_idle (initial w) R) as (s' & E & C & _).
    rewrite E. cbn [settle ret]. rewrite run_drained; [reflexivity|].
    apply (drained_keeps _ _ C). reflexivity.
Qed.

Lemma cli_start_foreground fuel env w :
  fs w LOG_DIR <> None ->
  cli JSON_parse fuel env ["start"] w =
  settle (bind (start false) (fun _ => ret tt) (initial w)) (run JSON_parse fuel env).
Proof. intros D. unfold cli. rewrite main_dispatch by exact D. reflexivity. Qed.

Lemma foreground_exit_code fuel env w ev :
  fs w LOG_DIR <> None ->
  registry w = NotRunning ->
  arrival (env O) = Some ev ->
  (ev = ChildErrored \/ exists code sig, ev = ChildExited code sig) ->
  exit_code (cli JSON_parse (S fuel) env ["start"] w) = Some 0.
Proof.
  intros Dir R A Ev. rewrite cli_start_foreground by exact Dir. unfold bind.
  destruct (start_not_running false (initial w) R) as (r & s0 & E & H).
  rewrite E. destruct H as [(-> & _ & _ & Fo & _ & _ & _ & T & G)|(_ & D & _)];
    [|discriminate].
  cbn in Fo, T, G. cbn [settle ret run].
  assert (D : drained s0 = false) by (unfold drained; rewrite T, G; reflexivity).
  rewrite D.
  destruct s0 as [w0 ks c l x ts nt t0 fg fo]; cbn in *; subst.
  unfold turn; cbn. rewrite A.
  unfold on_child_exit, on_child_error, set_fg_child. open_prims.
  destruct Ev as [->|(code & sig & ->)]; cbn.
  - match goal with |- context [removePidFile ?x] =>
      destruct (removePidFile_spec x) as (s' & E' & C & _) end.
    rewrite E'; cbn. rewrite run_drained; [reflexivity|].
    apply (drained_keeps _ _ C). reflexivity.
  - match goal with |- context [removePidFile ?x] =>
      destruct (removePidFile_spec x) as (s' & E' & C & _) end.
    rewrite E'; cbn.
    assert (D' : drained s' = true) by (apply (drained_keeps _ _ C); reflexivity).
    destruct code as [[| |]|]; cbn; rewrite run_drained; try reflexivity;
      destruct s'; exact D'.
Qed.

Lemma launch_fault_exit_code fuel env w :
  fs w LOG_DIR <> None ->
  registry w = NotRunning ->
  faulty w OpOpen LOG_FILE = true \/ faulty w OpOpen ERROR_LOG_FILE = true ->
  exit_code (cli JSON_parse fuel env ["start"; "-d"] w) = Some 1.
Proof.
  intros Dir R Fault. rewrite cli_start_daemon by exact Dir. unfold bind.
  destruct (start_not_running true (initial w) R) as (r & s0 & E & H).
  rewrite E. destruct H as [(_ & _ & _ & _ & _ & _ & _ & _ & _ & F1 & F2)|(-> & _)].
  - cbn in F1, F2. destruct Fault; congruence.
  - reflexivity.
Qed.

Lemma daemon_exit_code fuel env w :
  fs w LOG_DIR <> None ->
  registry w = NotRunning ->
  faulty w OpOpen LOG_FILE = false -> faulty w OpOpen ERROR_LOG_FILE = false ->
  (30 <= fuel)%nat ->
  let d := spec_detect JSON_parse env (wd (snd (start true (initial w))))
                       (child_pid w) 0 fuel in
  d <> POLLING /\
  exit_code (cli JSON_parse fuel env ["start"; "-d"] w) = spec_exit_code d.
Proof.
  intros Dir R F1 F2 F d. subst d. rewrite cli_start_daemon by exact Dir. unfold bind.
  destruct (start_not_running true (initial w) R) as (r & s0 & E & H).
  rewrite E. cbn [snd].
  destruct H as [(-> & _ & _ & Fo & _ & _ & _ & T & G & _)|(_ & _ & _ & [X|X])];
    cbn in *; try congruence.
  split.
  - apply detector_decides; unfold maxChecks; lia.
  - cbn [settle ret]. apply (detector_refines JSON_parse fuel env s0 O 200 200).
    unfold polling; auto.
Qed.
End ExitCodes.


Section Ticks.
Variable JSON_parse : string -> option json.

(** The result of a tick as a function of the detector's verdict. *)
Lemma checkStartup_result self child n s :
  fst (checkStartup JSON_parse self child n s) =
  match spec_tick JSON_parse (wd s) child (S n) with
  | POLLING => Val (S n)
  | SUCCESS | TIMEOUT => Exit 0
  | FAILURE => Exit 1
  end.
Proof.
  pose proof (checkStartup_spec JSON_parse self child n s) as H.
  destruct (spec_tick JSON_parse (wd s) child (S n)).
  - rewrite H; reflexivity.
  - destruct H as (s' & m & E & _); rewrite E; reflexivity.
  - destruct H as (s' & E & _); rewrite E; reflexivity.
  - destruct H as (s' & E & _); rewrite E; reflexivity.
Qed.

End Ticks.

(** Claim C10.  When the PID file is there and its content does not parse
    as an integer, [getPid] returns [NaN] (not [null]), [getStatus] and
    [status] report not-running, [stop] takes the not-running path, and
    [start] goes past the single-instance check and spawns the child (it can
    only end early on a failure to open the logs); none of them throws. *)
Theorem malformed_pid_file s content :
  fs (wd s) PID_FILE = Some content ->
  faulty (wd s) OpRead PID_FILE = false ->
  parseInt (trim content) = NaN ->
  getPid s = (Val (Some NaN), s) /\
  getStatus s = (Val NotRunning, s) /\
  status s = (Val false, say MStatusNotRunning s) /\
  (exists s', stop s = (Val false, s')) /\
  (forall daemon, exists r s',
      start daemon s = (r, s') /\
      ((r = Val true /\ launched s' = (launched s ++ [child_pid (wd s)])%list) \/
       (r = Exit 1 /\ daemon = true /\
        (faulty (wd s) OpOpen LOG_FILE = true \/
         faulty (wd s) OpOpen ERROR_LOG_FILE = true)))).
Proof.
  intros Ep Fr En.
  assert (G : getPid s = (Val (Some NaN), s)).
  { unfold getPid; open_prims; simp. reflexivity. }
  assert (S : getStatus s = (Val NotRunning, s)).
  { unfold getStatus, bind. rewrite G. reflexivity. }
  assert (R : registry (wd s) = NotRunning).
  { pose proof (getStatus_fst s) as H. rewrite S in H. cbn in H. congruence. }
  split; [exact G|]. split; [exact S|]. split.
  { unfold status, bind. rewrite S. reflexivity. }
  split.
  { destruct (stop_idle s R) as (s' & E & _). exists s'; exact E. }
  intros daemon. destruct (start_not_running daemon s R) as (r & s' & E & H).
  exists r, s'. split; [exact E|]. intuition auto.
Qed.

(** ** The line count of [logs] *)
Lemma digit_nonneg radix c d : digit radix c = Some d -> 0 <= d.
Proof.
  unfold digit.
  set (n := Z.of_nat (nat_of_ascii c)).
  destruct ((48 <=? n) && (n <=? 57)) eqn:A.
  - apply andb_true_iff in A; destruct A as (A & _); apply Z.leb_le in A.
    destruct (n - 48 <? radix); intros [= <-]; lia.
  - destruct ((97 <=? n) && (n <=? 122)) eqn:B.
    + apply andb_true_iff in B; destruct B as (B & _); apply Z.leb_le in B.
      destruct (n - 87 <? radix); intros [= <-]; lia.
    + destruct ((65 <=? n) && (n <=? 90)) eqn:C; [|discriminate].
      apply andb_true_iff in C; destruct C as (C & _); apply Z.leb_le in C.
      destruct (n - 55 <? radix); intros [= <-]; lia.
Qed.

Lemma digits_nonneg radix s :
  0 <= radix ->
  forall acc v, (forall a, acc = Some a -> 0 <= a) ->
                digits radix acc s = Some v -> 0 <= v.
Proof.
  intros Hr. induction s as [|c t IH]; intros acc v Ha H; cbn in H.
  - apply Ha; exact H.
  - destruct (digit radix c) as [d|] eqn:D.
    + apply IH in H; [exact H|].
      intros a [= <-]. pose proof (digit_nonneg _ _ _ D).
      destruct acc as [a0|]; [|assumption].
      specialize (Ha a0 eq_refl). nia.
    + apply Ha; exact H.
Qed.

(** [parseInt] is negative only on a text that starts, after leading white
    space, with a minus sign. *)
Lemma parseInt_negative s z :
  parseInt s = Num z -> z < 0 -> startsWith (trimStart s) "-" = true.
Proof.
  unfold parseInt, strip_sign.
  destruct (trimStart s) as [|c t]; cbn.
  - discriminate.
  - destruct (Ascii.eqb c "-") eqn:E.
    + intros _ _. apply Ascii.eqb_eq in E; subst c. reflexivity.
    + assert (P : forall u, (let '(radix, s0) := strip_radix u in
                  match digits radix None s0 with
                  | Some v => Num (1 * v) | None => NaN end) = Num z -> z < 0 -> False).
      { intros u. unfold strip_radix.
        assert (Q : forall radix s0, 0 <= radix ->
                     match digits radix None s0 with
                     | Some v => Num (1 * v) | None => NaN end = Num z -> z < 0 -> False).
        { intros radix s0 Hr H Hz. destruct (digits radix None s0) as [v|] eqn:D; [|discriminate].
          injection H as H. apply digits_nonneg in D; [destruct v; lia|exact Hr|discriminate]. }
        destruct u as [|a [|b u']]; try (apply Q; lia).
        destruct (Ascii.eqb a "0" && (Ascii.eqb b "x" || Ascii.eqb b "X")); apply Q; lia. }
      destruct (Ascii.eqb c "+"); intros H Hz; exfalso; eapply P; eauto.
Qed.


(** ** Exit codes *)

Section Codes.
Variable JSON_parse : string -> option json.

End Codes.

(** ** [restart] *)

Section Restart.
Variable JSON_parse : string -> option json.

Local Opaque Nat.eqb Z.ltb Z.add Nat.leb.

(** [restart] does not wait for the exit poll.  When the process takes
    SIGTERM and the registry still reports it running after the first two
    moves of the environment, the second turn of the loop is the delayed
    start, 2000 ms after [restart]: it finds the service running and
    launches nothing, and the exit poll is still pending. *)
Lemma restart_overtakes env s pid daemon :
  drained s = true ->
  registry (wd s) = Running pid ->
  kill_ok (wd s) pid SIGTERM = true ->
  kill_ok (drift env 1 (wd s)) pid SIG0 = true ->
  registry (drift env 2 (wd s)) = Running pid ->
  exists s1 s2,
    restart daemon s = (Val true, s1) /\
    run JSON_parse 2 env s1 = StillRunning s2 /\
    now s2 = now s + 2000 /\
    launched s2 = launched s /\
    console s2 = (console s ++ [MRestarting; MStopping pid; MAlreadyRunning pid])%list /\
    wd s2 = drift env 2 (wd s).
Proof.
  intros D R T A1 R2.
  destruct s as [w ks c l x ts nt t0 fg fo]. unfold drained in D; cbn in D.
  destruct ts; [|discriminate]. destruct fg; [discriminate|]. destruct fo; [discriminate|].
  cbn in *.
  pose proof (stop_running (say MRestarting (mkState w ks c l x [] nt t0 None false)) pid R) as S0.
  cbn in S0. rewrite T in S0.
  unfold restart, setTimeout, add_timer, log, bind. unfold say, log in S0. cbn in S0 |- *.
  rewrite S0. cbn.
  do 2 eexists. split; [reflexivity|].
  assert (L1 : (t0 + 2000 <? t0 + 1000) = false) by (apply Z.ltb_ge; lia).
  assert (L2 : (t0 + 1000 + 1000 <? t0 + 2000) = false) by (apply Z.ltb_ge; lia).
  assert (N1 : Nat.eqb (S nt) nt = false) by (apply Nat.eqb_neq; lia).
  assert (N2 : Nat.eqb nt (S nt) = false) by (apply Nat.eqb_neq; lia).
  assert (L3 : (maxAttempts <=? 1)%nat = false) by (vm_compute; reflexivity).
  unfold turn. cbn.
  destruct (arrival (env O)) as [[]|]; cbn; rewrite L1; cbn.
  all: unfold fire, expire, checkExit, isProcessRunning, clearInterval, recapture, bind,
         try_catch, kill, ret, set_timers; cbn.
  all: rewrite ?Nat.eqb_refl, ?N1, ?N2; cbn; rewrite A1; cbn; rewrite ?L3; cbn.
  all: rewrite ?Nat.eqb_refl, ?N1, ?N2; cbn.
  all: unfold turn; cbn.
  all: destruct (arrival (shift env O)) as [[]|]; cbn; rewrite L2; cbn.
  all: unfold fire, expire, bind; cbn; rewrite ?Nat.eqb_refl, ?N1, ?N2; cbn.
  all: match goal with |- context [start _ ?st] =>
         destruct (getStatus_registry st) as (s1 & E & _ & _ & Same) end;
       cbn in E, Same; rewrite R2 in E; rewrite (Same pid R2) in E;
       unfold start, bind; rewrite E; cbn.
  all: repeat split; try reflexivity.
  all: cbn; rewrite <- !app_assoc; reflexivity.
Qed.
End Restart.

Transparent removePidFile toString.

(** ** The claims on concrete runs *)
Lemma drift_still n w : drift still n w = w.
Proof. induction n as [|n IH]; [reflexivity|exact IH]. Qed.

(** Claim C1 on the code.  [restart] arms the delayed start as soon as
    [stop] has returned, that is as soon as SIGTERM is sent, so the start
    does not wait for the stop to complete.  With process 4242 still alive
    two seconds after the signal, the start runs at 2000 ms while the PID
    file is there and the process is alive; it finds the service running
    and launches nothing.  Whether the process then goes away (here at
    3000 ms) or has to be killed after 30 s, the controller exits with
    status 0 and no service has been started. *)
Theorem restart_starts_before_stop_completes :
  let at_2s := final (cli sample_parse 2 still ["restart"; "-d"] w_running) in
  let slow := cli sample_parse 40 (gone_at 3) ["restart"; "-d"] w_running in
  let never := cli sample_parse 40 still ["restart"; "-d"] w_running in
  now at_2s = 2000 /\
  console at_2s = [MRestarting; MStopping 4242; MAlreadyRunning 4242] /\
  fs (wd at_2s) PID_FILE = Some "4242" /\
  kill_ok (wd at_2s) 4242 SIG0 = true /\
  launched at_2s = [] /\
  exit_code slow = Some 0 /\ launched (final slow) = [] /\
  now (final slow) = 3000 /\
  console (final slow) =
    [MRestarting; MStopping 4242; MAlreadyRunning 4242; MStopped; MPidFileRemoved] /\
  exit_code never = Some 0 /\ launched (final never) = [] /\
  kills (final never) = [(4242, SIGTERM, true); (4242, SIGKILL, true)].
Proof. vm_compute. repeat split; reflexivity. Qed.



Lemma stop_escalates_witness :
  exists s0 s',
    stop (initial w_running) = (Val true, s0) /\
    run sample_parse 30 still s0 = Finished 0 s' /\
    kills s' = [(4242, SIGTERM, true); (4242, SIGKILL, true)] /\
    now s' = 30000 /\
    (unlink_works w_running -> records_gone (wd s')).
Proof.
  destruct (stop_escalates sample_parse still (initial w_running) 4242 30)
    as (s0 & s' & E & R & K & N & G).
  - vm_compute; reflexivity.
  - vm_compute; reflexivity.
  - vm_compute; reflexivity.
  - intros k _. rewrite drift_still. vm_compute; reflexivity.
  - lia.
  - exists s0, s'. rewrite drift_still in K, G. auto.
Defined.

(** The scan looks at the last 30 elements of the split: a failure line
    followed by 29 lines is seen, the same line followed by 30 lines is
    not, and the poll goes on. *)
Example failure_line_in_and_out_of_sight :
  fst (checkStartup sample_parse 0 5000 0
         (initial (w_fresh (Some (log_with_old_failure 29)) None))) = Exit 1 /\
  fst (checkStartup sample_parse 0 5000 0
         (initial (w_fresh (Some (log_with_old_failure 30)) None))) = Val 1%nat.
Proof. vm_compute. split; reflexivity. Qed.


Lemma startup_soft_timeout_witness :
  exists s',
    run sample_parse 30 still (snd (start true (initial (w_fresh None None))))
    = Finished 0 s' /\
    now s' = 6000 /\
    fs (wd s') PID_FILE = Some "5000".
Proof.
  destruct (startup_soft_timeout sample_parse still (initial (w_fresh None None))
              (snd (start true (initial (w_fresh None None)))) 30)
    as (s' & R & N & _ & _ & W & Keep & Written).
  - vm_compute; reflexivity.
  - vm_compute; reflexivity.
  - intros k _. rewrite drift_still. unfold quiet. repeat split; vm_compute; reflexivity.
  - lia.
  - exists s'. split; [exact R|]. split; [exact N|].
    rewrite Keep; [|reflexivity]. rewrite Written; vm_compute; reflexivity.
Defined.

(** Claim C6 fails on the code: the log holds a failure mark, no marker and
    no success mark, but the child is gone at the first tick; the liveness
    check fails the launch and no signal is sent. *)
Lemma failure_mark_dead_child :
  let w := w_failed_and_gone in
  let o := cli sample_parse 30 still ["start"; "-d"] w in
  log_failure (wd (snd (start true (initial w)))) = true /\
  log_success (wd (snd (start true (initial w)))) = false /\
  marker_valid sample_parse (wd (snd (start true (initial w)))) 5000 = false /\
  exit_code o = Some 1 /\
  kills (final o) = [] /\
  console (final o) =
    [MStarting; MDaemonLaunched 5000; MPidSaved 5000; MLogLocations; MWaiting;
     MChildGone; MPidFileRemoved].
Proof. vm_compute. repeat split; reflexivity. Qed.

Lemma failure_mark_detected_witness :
  exists s',
    run sample_parse 1 still launched_state = Finished 1 s' /\
    kills s' = [(5000, SIGTERM, true)] /\
    records_gone (wd s').
Proof.
  destruct (failure_mark_detected sample_parse still launched_state
              0 200 200 5000 0 0) as (s' & R & K & G).
  - unfold polling. repeat split; vm_compute; reflexivity.
  - vm_compute; reflexivity.
  - vm_compute; reflexivity.
  - vm_compute; reflexivity.
  - vm_compute; reflexivity.
  - exists s'. split; [exact R|]. split; [exact K|].
    apply G. split; vm_compute; reflexivity.
Defined.

Lemma stop_when_not_running_witness :
  exists s',
    stop (initial w_stale) = (Val false, s') /\
    kills s' = [] /\ timers s' = [] /\
    records_gone (wd s').
Proof.
  destruct (stop_when_not_running (initial w_stale)) as (s' & E & K & T & _ & G & _).
  - vm_compute; reflexivity.
  - exists s'. split; [exact E|]. split; [exact K|]. split; [exact T|].
    apply G. split; vm_compute; reflexivity.
Defined.





Lemma malformed_pid_file_witness :
  getPid (initial w_garbage) = (Val (Some NaN), initial w_garbage) /\
  getStatus (initial w_garbage) = (Val NotRunning, initial w_garbage).
Proof.
  destruct (malformed_pid_file (initial w_garbage) "not-a-pid") as (G & S & _).
  - vm_compute; reflexivity.
  - vm_compute; reflexivity.
  - vm_compute; reflexivity.
  - split; [exact G|exact S].
Defined.

(** * Further properties of the code *)

(** ** Decimal text of a pid and back *)

Lemma decimal_char c :
  isSome (digit 10 c) = true ->
  is_ws c = false /\ Ascii.eqb c "-" = false /\ Ascii.eqb c "+" = false /\
  Ascii.eqb c "x" = false /\ Ascii.eqb c "X" = false.
Proof.
  destruct c as [[] [] [] [] [] [] [] []]; vm_compute; intros H;
    try discriminate; repeat split.
Qed.

Lemma digit_of_code m :
  0 <= m < 10 -> digit 10 (ascii_of_nat (Z.to_nat (48 + m))) = Some m.
Proof.
  intros H.
  assert (C : m = 0 \/ m = 1 \/ m = 2 \/ m = 3 \/ m = 4 \/ m = 5 \/ m = 6 \/
              m = 7 \/ m = 8 \/ m = 9) by lia.
  repeat destruct C as [-> | C]; try subst m; reflexivity.
Qed.

Lemma pos_digits_step fuel n acc :
  pos_digits (S fuel) n acc =
  if n / 10 =? 0 then String (ascii_of_nat (Z.to_nat (48 + n mod 10))) acc
  else pos_digits fuel (n / 10) (String (ascii_of_nat (Z.to_nat (48 + n mod 10))) acc).
Proof. reflexivity. Qed.

Lemma pos_digits_decimal fuel :
  forall n acc, 0 <= n -> all_decimal acc = true ->
                all_decimal (pos_digits fuel n acc) = true.
Proof.
  induction fuel as [|fuel IH]; intros n acc Hn Ha; cbn [pos_digits]; [exact Ha|].
  assert (D : all_decimal (String (ascii_of_nat (Z.to_nat (48 + n mod 10))) acc) = true).
  { cbn [all_decimal]. rewrite digit_of_code by (apply Z.mod_pos_bound; lia).
    exact Ha. }
  destruct (n / 10 =? 0); [exact D|].
  apply IH; [apply Z.div_pos; lia|exact D].
Qed.

Lemma pos_digits_nonempty fuel :
  forall n c t, exists c' t', pos_digits fuel n (String c t) = String c' t'.
Proof.
  induction fuel as [|fuel IH]; intros n c t; cbn [pos_digits]; [eauto|].
  destruct (n / 10 =? 0); [eauto|]. apply IH.
Qed.

Lemma pos_digits_value fuel :
  forall n acc a,
    0 <= n < 2 ^ Z.of_nat (S fuel) ->
    exists k, 0 <= k /\
      digits 10 a (pos_digits (S fuel) n acc) =
      digits 10 (Some (match a with Some x => x | None => 0 end * 10 ^ k + n)) acc.
Proof.
  induction fuel as [|fuel IH]; intros n acc a Hn.
  - assert (n / 10 = 0) by (apply Z.div_small; change (2 ^ Z.of_nat 1) with 2 in Hn; lia).
    cbn [pos_digits]. rewrite H. cbn [Z.eqb digits].
    assert (M : n mod 10 = n) by (apply Z.mod_small; change (2 ^ Z.of_nat 1) with 2 in Hn; lia).
    rewrite M, digit_of_code by (change (2 ^ Z.of_nat 1) with 2 in Hn; lia).
    exists 1. split; [lia|]. destruct a; f_equal; f_equal; lia.
  - rewrite pos_digits_step.
    pose proof (Z.mod_pos_bound n 10 ltac:(lia)) as Hm.
    pose proof (Z.div_mod n 10 ltac:(lia)) as Hd.
    destruct (n / 10 =? 0) eqn:Q.
    + apply Z.eqb_eq in Q. cbn [digits]. rewrite digit_of_code by lia.
      exists 1. split; [lia|]. destruct a; f_equal; f_equal; lia.
    + assert (B : 0 <= n / 10 < 2 ^ Z.of_nat (S fuel)).
      { split; [apply Z.div_pos; lia|].
        apply Z.div_lt_upper_bound; [lia|].
        rewrite (Nat2Z.inj_succ (S fuel)), Z.pow_succ_r in Hn by lia. lia. }
      destruct (IH (n / 10) (String (ascii_of_nat (Z.to_nat (48 + n mod 10))) acc) a B)
        as (k & Hk & E).
      rewrite E. cbn [digits]. rewrite digit_of_code by lia.
      exists (k + 1). split; [lia|]. f_equal. f_equal.
      rewrite Z.pow_add_r by lia. lia.
Qed.

Lemma trimEnd_decimal s : all_decimal s = true -> trimEnd s = s.
Proof.
  induction s as [|c t IH]; [reflexivity|]. cbn [all_decimal trimEnd].
  intros H. apply andb_true_iff in H. destruct H as (Hc & Ht).
  rewrite (IH Ht). destruct t; [|reflexivity].
  destruct (decimal_char c Hc) as (W & _). rewrite W. reflexivity.
Qed.

Lemma trimEnd_cons a c t :
  trimEnd (String c t) = String c t ->
  trimEnd (String a (String c t)) = String a (String c t).
Proof.
  intros H.
  change (trimEnd (String a (String c t)))
    with (match trimEnd (String c t) with
          | EmptyString => if is_ws a then EmptyString else String a EmptyString
          | String x y => String a (String x y)
          end).
  rewrite H. reflexivity.
Qed.

Lemma parse_decimal s n :
  s <> EmptyString -> all_decimal s = true ->
  digits 10 None s = Some n ->
  forall sign, (let '(radix, r) := strip_radix s in
                match digits radix None r with
                | Some v => Num (sign * v) | None => NaN end) = Num (sign * n).
Proof.
  intros Ne D V sign. unfold strip_radix.
  destruct s as [|a [|b t]]; [congruence| |].
  - rewrite V; reflexivity.
  - cbn [all_decimal] in D. apply andb_true_iff in D. destruct D as (_ & D).
    apply andb_true_iff in D. destruct D as (Db & _).
    destruct (decimal_char b Db) as (_ & _ & _ & X1 & X2). rewrite X1, X2.
    rewrite andb_false_r. rewrite V. reflexivity.
Qed.

Lemma toString_fuel n : 0 <= n -> 0 <= n < 2 ^ Z.of_nat (S (Z.to_nat (Z.log2 n))).
Proof.
  intros H. split; [exact H|].
  rewrite Nat2Z.inj_succ, Z2Nat.id by apply Z.log2_nonneg.
  destruct (Z.eq_dec n 0) as [->|N]; [reflexivity|].
  apply Z.log2_spec. lia.
Qed.

Theorem parseInt_toString n : parseInt (trim (toString n)) = Num n.
Proof.
  unfold toString.
  assert (P : forall m, 0 <= m ->
            exists c t, pos_digits (S (Z.to_nat (Z.log2 m))) m EmptyString = String c t /\
                        all_decimal (String c t) = true /\
                        digits 10 None (String c t) = Some m).
  { intros m Hm.
    destruct (pos_digits_value (Z.to_nat (Z.log2 m)) m EmptyString None (toString_fuel m Hm))
      as (k & _ & V).
    pose proof (pos_digits_decimal (S (Z.to_nat (Z.log2 m))) m EmptyString Hm eq_refl) as D.
    rewrite pos_digits_step in *. cbn [pos_digits] in D.
    set (d := String (ascii_of_nat (Z.to_nat (48 + m mod 10))) EmptyString) in *.
    destruct (m / 10 =? 0).
    - exists (ascii_of_nat (Z.to_nat (48 + m mod 10))), EmptyString.
      subst d. repeat split; auto; rewrite V; cbn [digits]; f_equal; lia.
    - destruct (pos_digits_nonempty (Z.to_nat (Z.log2 m)) (m / 10)
                  (ascii_of_nat (Z.to_nat (48 + m mod 10))) EmptyString) as (c & t & E).
      subst d. rewrite E in *. exists c, t.
      repeat split; auto; rewrite V; cbn [digits]; f_equal; lia. }
  destruct (n <? 0) eqn:S.
  - apply Z.ltb_lt in S. destruct (P (- n) ltac:(lia)) as (c & t & E & D & V).
    rewrite E. unfold trim. change (trimStart (String "-" (String c t))) with (String "-" (String c t)).
    rewrite (trimEnd_cons _ _ _ (trimEnd_decimal _ D)).
    unfold parseInt. change (trimStart (String "-" (String c t))) with (String "-" (String c t)).
    cbn [strip_sign]. change (Ascii.eqb "-" "-") with true. cbv iota.
    rewrite (parse_decimal (String c t) (- n)); [f_equal; lia|discriminate|exact D|exact V].
  - apply Z.ltb_ge in S. destruct (P n S) as (c & t & E & D & V).
    rewrite E. unfold trim.
    assert (Dc : isSome (digit 10 c) = true) by (cbn in D; apply andb_true_iff in D; tauto).
    destruct (decimal_char c Dc) as (W & M & Pl & _).
    assert (TS : trimStart (String c t) = String c t) by (cbn; rewrite W; reflexivity).
    rewrite TS, (trimEnd_decimal _ D). unfold parseInt. rewrite TS.
    cbn [strip_sign]. rewrite M, Pl.
    rewrite (parse_decimal (String c t) n); [f_equal; lia|discriminate|exact D|exact V].
Qed.

(** ** The registry, [start], [stop] and [status], case by case *)

Opaque removePidFile toString.



(** Helper: the registry answers running exactly on a readable PID file that
    parses to a non-zero pid which can be probed. *)
Lemma start_rejects daemon s pid :
  registry (wd s) = Running pid ->
  start daemon s = (Val false, say (MAlreadyRunning pid) s).
Proof.
  intros R. destruct (getStatus_registry s) as (s1 & E & _ & _ & Same).
  rewrite (Same pid R), R in E. unfold start, bind. rewrite E. reflexivity.
Qed.

(** Property X4.  Lines 80-85: when [getStatus] answers running, [start]
    returns [false] in either mode, prints one line that names the pid,
    and launches nothing, sends no signal, arms no timer and leaves every
    file as it is. *)
Theorem start_rejected_when_running daemon s pid :
  fst (getStatus s) = Val (Running pid) ->
  exists s',
    start daemon s = (Val false, s') /\
    wd s' = wd s /\ launched s' = launched s /\ kills s' = kills s /\
    timers s' = timers s /\ fg_child s' = fg_child s /\
    console s' = (console s ++ [MAlreadyRunning pid])%list.
Proof.
  intros H. rewrite getStatus_fst in H. injection H as R.
  rewrite (start_rejects daemon s pid R). eexists. split; [reflexivity|].
  cbn. repeat split.
Qed.

(** The files an accepted [start] leaves. *)
Lemma start_accepted_files daemon s s0 :
  start daemon s = (Val true, s0) ->
  registry (wd s) = NotRunning /\
  launched s0 = (launched s ++ [child_pid (wd s)])%list /\
  kill_ok (wd s0) = kill_ok (wd s) /\ faulty (wd s0) = faulty (wd s) /\
  fs (wd s0) PID_FILE =
    (if faulty (wd s) OpWrite PID_FILE then fs (wd s) PID_FILE
     else Some (toString (child_pid (wd s)))) /\
  fs (wd s0) STARTUP_MARKER_FILE =
    (if faulty (wd s) OpUnlink STARTUP_MARKER_FILE
     then fs (wd s) STARTUP_MARKER_FILE else None).
Proof.
  intros E.
  assert (R : registry (wd s) = NotRunning).
  { destruct (registry (wd s)) as [pid|] eqn:R; [|reflexivity].
    rewrite (start_rejects daemon s pid R) in E. discriminate. }
  split; [exact R|].
  destruct (getStatus_registry s) as (s1 & E1 & W & C & _).
  rewrite R in E1. unfold start, bind at 1 in E. rewrite E1 in E.
  unfold keeps_control in C.
  destruct s as [w ks c l x ts nt t0 fg fo].
  destruct s1 as [w1 ks1 c1 l1 x1 ts1 nt1 t1 fg1 fo1]; cbn in *.
  destruct C as (-> & -> & -> & -> & -> & -> & -> & ->). subst w1.
  revert E.
  unfold writePid, spawn_service, setInterval, add_timer, set_fg_child.
  open_prims.
  destruct w as [f k fl cp]; cbn.
  destruct (f STARTUP_MARKER_FILE) eqn:Em;
    [destruct (fl OpUnlink STARTUP_MARKER_FILE) eqn:Fm|];
    destruct daemon; simp;
    try (destruct (fl OpOpen LOG_FILE) eqn:Fo1; simp;
         [| destruct (f LOG_FILE) eqn:El; simp;
            (destruct (fl OpOpen ERROR_LOG_FILE) eqn:Fo2; simp;
             [| destruct (f ERROR_LOG_FILE) eqn:Ee; simp])]);
    try (destruct (fl OpWrite PID_FILE) eqn:Fw; simp);
    try (match goal with |- context [removePidFile ?x] =>
           destruct (removePidFile_spec x) as (s' & E' & _) end;
         rewrite E'; cbn; discriminate);
    intros [= <-]; simp; repeat split; auto.
  all: try (destruct (fl OpUnlink STARTUP_MARKER_FILE); reflexivity).
Qed.

(** Property X3.  Lines 80-247 with 72-78: after an accepted [start] whose
    PID file could be written, in any later state whose PID file is the
    one [start] left, can be read, and whose child (a non-zero pid) answers
    the probe, [getStatus] reports the child as running and a second
    [start] is refused. *)
Theorem started_service_is_registered daemon s s0 s1 :
  start daemon s = (Val true, s0) ->
  faulty (wd s) OpWrite PID_FILE = false ->
  child_pid (wd s) <> 0 ->
  fs (wd s1) PID_FILE = fs (wd s0) PID_FILE ->
  faulty (wd s1) OpRead PID_FILE = false ->
  kill_ok (wd s1) (child_pid (wd s)) SIG0 = true ->
  getStatus s1 = (Val (Running (child_pid (wd s))), s1) /\
  forall daemon', fst (start daemon' s1) = Val false.
Proof.
  intros E Fw Nz Same Fr Alive.
  destruct (start_accepted_files daemon s s0 E) as (_ & _ & _ & _ & P & _).
  rewrite Fw in P.
  assert (R : registry (wd s1) = Running (child_pid (wd s))).
  { unfold registry. rewrite Same, P, Fr, parseInt_toString. cbn.
    apply Z.eqb_neq in Nz. rewrite Nz, Alive. reflexivity. }
  destruct (getStatus_registry s1) as (s2 & E2 & _ & _ & S2).
  rewrite (S2 _ R), R in E2. split; [exact E2|].
  intros d'. rewrite (start_rejects d' s1 _ R). reflexivity.
Qed.

(** Property X5.  Lines 89-96: an accepted [start] leaves no startup marker
    behind when the file system lets it be removed; when the removal is
    refused the launch goes on with the old marker in place. *)
Theorem start_clears_stale_marker daemon s s0 :
  start daemon s = (Val true, s0) ->
  (faulty (wd s) OpUnlink STARTUP_MARKER_FILE = false ->
   fs (wd s0) STARTUP_MARKER_FILE = None) /\
  (faulty (wd s) OpUnlink STARTUP_MARKER_FILE = true ->
   fs (wd s0) STARTUP_MARKER_FILE = fs (wd s) STARTUP_MARKER_FILE).
Proof.
  intros E. destruct (start_accepted_files daemon s s0 E) as (_ & _ & _ & _ & _ & M).
  split; intros F; rewrite F in M; exact M.
Qed.


(** Property X9.  Lines 288-292: when the process runs but SIGTERM is
    refused, [stop] returns [false], has tried that one signal, arms no
    poll, and has removed the records when the file system lets it. *)
Theorem stop_signal_refused s pid :
  fst (getStatus s) = Val (Running pid) ->
  kill_ok (wd s) pid SIGTERM = false ->
  exists s',
    stop s = (Val false, s') /\
    kills s' = (kills s ++ [(pid, SIGTERM, false)])%list /\
    timers s' = timers s /\
    (unlink_works (wd s) -> records_gone (wd s')).
Proof.
  intros H K. rewrite getStatus_fst in H. injection H as R.
  pose proof (stop_running s pid R) as S. rewrite K in S.
  destruct S as (s' & E & _ & Ks & T & _ & _ & _ & G).
  exists s'. auto.
Qed.

(** Property X13.  Lines 308-325: [status] returns whether the registry
    says running and changes nothing outside the console: no file, no
    signal, no timer, no launch; it queries [ps] exactly when the service
    runs. *)
Theorem status_is_read_only s :
  exists s',
    status s = (Val (running (registry (wd s))), s') /\
    wd s' = wd s /\ kills s' = kills s /\ timers s' = timers s /\
    launched s' = launched s /\ fg_child s' = fg_child s /\
    follower s' = follower s /\
    execs s' = (execs s ++ match registry (wd s) with
                           | Running pid => [ExecPs pid]
                           | NotRunning => []
                           end)%list.
Proof.
  destruct (getStatus_registry s) as (s1 & E & W & C & _).
  unfold status, bind. rewrite E. unfold keeps_control in C.
  destruct C as (Ck & Cl & Cx & Ct & _ & _ & Cf & Co).
  destruct (registry (wd s)); cbn; eexists; (split; [reflexivity|]); cbn;
    rewrite ?app_nil_r; repeat split; auto; congruence.
Qed.

Transparent removePidFile.

(** What [removePidFile] prints. *)
Lemma removePidFile_console s :
  exists s' msgs,
    removePidFile s = (Val tt, s') /\
    console s' = (console s ++ msgs)%list /\
    forall m, In m msgs ->
              m = MPidFileRemoved \/ m = MMarkerRemoved \/ m = MCleanupFailed.
Proof.
  destruct s as [[f k fl cp] ks c l x ts nt t0 fg fo].
  unfold removePidFile. open_prims; cbn.
  destruct (f PID_FILE) eqn:Ep; destruct (fl OpUnlink PID_FILE) eqn:Fp; cbn;
    destruct (f STARTUP_MARKER_FILE) eqn:Em;
    destruct (fl OpUnlink STARTUP_MARKER_FILE) eqn:Fm;
    repeat (progress (cbn; rewrite ?Ep, ?Fp, ?Em, ?Fm));
    eexists.
  all: first
    [ exists []; split; [reflexivity|]; cbn; rewrite app_nil_r; split;
      [reflexivity | intros m []]
    | eexists [_]; split; [reflexivity|]; cbn; split;
      [reflexivity | intros m [<-|[]]; auto]
    | eexists [_; _]; split; [reflexivity|]; cbn; rewrite <- app_assoc; split;
      [reflexivity | intros m [<-|[<-|[]]]; auto] ].
Qed.

Opaque removePidFile.

Section Foreground.
Variable JSON_parse : string -> option json.

(** Property X7.  Lines 233-238 with 56-70: when the foreground child
    exits, the listener removes the records (when the file system lets
    it), sends no signal, prints the exit line unless the code is 0, and
    leaves nothing that keeps the controller alive. *)
Theorem foreground_child_exit e s child code sig :
  fg_child s = Some child -> timers s = [] -> follower s = false ->
  arrival e = Some (ChildExited code sig) ->
  exists s' cleanup,
    turn JSON_parse e s = (Val tt, s') /\
    drained s' = true /\
    kills s' = kills s /\
    (unlink_works (change e (wd s)) -> records_gone (wd s')) /\
    console s' = (console s ++ cleanup ++
                  match code with
                  | Some 0 => []
                  | _ => [MChildExit code sig]
                  end)%list /\
    (forall m, In m cleanup ->
               m = MPidFileRemoved \/ m = MMarkerRemoved \/ m = MCleanupFailed).
Proof.
  intros G T F A.
  destruct s as [w ks c l x ts nt t0 fg fo]; cbn in *; subst.
  unfold turn; cbn. rewrite A.
  unfold on_child_exit, set_fg_child. open_prims. cbn.
  match goal with |- context [removePidFile ?x] =>
    destruct (removePidFile_spec x) as (s' & E' & C & _ & R & _);
    destruct (removePidFile_console x) as (s'' & msgs & E'' & Cs & M) end.
  rewrite E' in E''. injection E'' as <-.
  rewrite E'. cbn in *.
  assert (D' : drained s' = true) by (apply (drained_keeps _ _ C); reflexivity).
  destruct C as (Ck & _). cbn in Ck.
  destruct code as [[| |]|]; cbn.
  - exists s', msgs. rewrite app_nil_r. auto 10.
  - eexists; exists msgs. split; [reflexivity|]. cbn.
    rewrite Cs, app_assoc. destruct s'; cbn in *. auto 10.
  - eexists; exists msgs. split; [reflexivity|]. cbn.
    rewrite Cs, app_assoc. destruct s'; cbn in *. auto 10.
  - eexists; exists msgs. split; [reflexivity|]. cbn.
    rewrite Cs, app_assoc. destruct s'; cbn in *. auto 10.
Qed.

(** Property X12.  Lines 141-158: a marker that cannot be read, does not
    parse, or carries another pid, has no effect on the outcome of a tick:
    the tick ends as it would with no marker file at all. *)
Theorem unusable_marker_is_ignored self child n s :
  marker_valid JSON_parse (wd s) child = false ->
  fst (checkStartup JSON_parse self child n s) =
  fst (checkStartup JSON_parse self child n
         (set_wd (fs_set STARTUP_MARKER_FILE None) s)).
Proof.
  intros M. rewrite !checkStartup_result.
  assert (T : spec_tick JSON_parse (wd (set_wd (fs_set STARTUP_MARKER_FILE None) s))
                        child (S n)
              = spec_tick JSON_parse (wd s) child (S n)).
  { unfold spec_tick. rewrite M.
    destruct s as [w ? ? ? ? ? ? ? ? ?]; cbn. reflexivity. }
  rewrite T. reflexivity.
Qed.
End Foreground.

(** ** Runs of the polls, for any number of ticks *)

Lemma drift_snoc m :
  forall env w, drift env (S m) w = change (shiftn m env O) (drift env m w).
Proof.
  induction m as [|m IH]; intros env w; [reflexivity|].
  change (drift env (S (S m)) w) with (drift (shift env) (S m) (change (env O) w)).
  rewrite IH. reflexivity.
Qed.

Lemma wd_set_wd f s : wd (set_wd f s) = f (wd s).
Proof. destruct s; reflexivity. Qed.

Section Runs.
Variable JSON_parse : string -> option json.

Lemma startup_after_quiet m :
  forall env s id d p child n fuel,
    polling s (mkTimer id d (Some p) (CheckStartup child n)) ->
    (n + m < maxChecks)%nat ->
    (forall j, (j < m)%nat -> quiet JSON_parse (drift env (S j) (wd s)) child) ->
    exists sm,
      polling sm (mkTimer id (d + p * Z.of_nat m) (Some p)
                          (CheckStartup child (n + m))) /\
      wd sm = drift env m (wd s) /\ kills sm = kills s /\
      launched sm = launched s /\ console sm = console s /\
      run JSON_parse (m + fuel) env s = run JSON_parse fuel (shiftn m env) sm.
Proof.
  induction m as [|m IH]; intros env s id d p child n fuel P Hn Q.
  - exists s. rewrite Z.mul_0_r, Z.add_0_r, Nat.add_0_r. auto 10.
  - cbn [Nat.add run]. rewrite (polling_not_drained _ _ P).
    pose proof (startup_turn JSON_parse (env O) s id d p child n P) as T; cbn zeta in T.
    rewrite wd_set_wd in T.
    change (change (env O) (wd s)) with (drift env 1 (wd s)) in T.
    rewrite (quiet_tick _ _ _ _ (Q O ltac:(lia))) in T.
    assert (L : (maxChecks <=? S n)%nat = false) by (apply Nat.leb_gt; lia).
    rewrite L in T. rewrite T; cbn [settle].
    destruct P as (_ & G & F).
    destruct (IH (shift env) (after_expiry (set_wd (change (env O)) s)
                                 (mkTimer id d (Some p) (CheckStartup child n))
                                 (CheckStartup child (S n)))
                 id (d + p) p child (S n) fuel) as (sm & Pm & Wm & Km & Lm & Cm & Rm).
    + apply (polling_after_expiry _ (mkTimer id d (Some p) (CheckStartup child n)));
        destruct s; auto.
    + lia.
    + intros j Hj. cbn [after_expiry wd]. rewrite wd_set_wd. apply (Q (S j)). lia.
    + exists sm. cbn [after_expiry wd kills launched console] in *.
      rewrite wd_set_wd in Wm.
      replace (d + p * Z.of_nat (S m)) with (d + p + p * Z.of_nat m) by lia.
      replace (n + S m)%nat with (S n + m)%nat by lia.
      split; [exact Pm|]. split; [exact Wm|].
      destruct s; cbn in *. auto.
Qed.

Lemma stop_after_alive m :
  forall env s id d p pid n fuel,
    polling s (mkTimer id d (Some p) (CheckExit pid n)) ->
    (n + m < maxAttempts)%nat ->
    (forall j, (j < m)%nat -> kill_ok (drift env (S j) (wd s)) pid SIG0 = true) ->
    exists sm,
      polling sm (mkTimer id (d + p * Z.of_nat m) (Some p) (CheckExit pid (n + m))) /\
      wd sm = drift env m (wd s) /\ kills sm = kills s /\
      launched sm = launched s /\ console sm = console s /\
      run JSON_parse (m + fuel) env s = run JSON_parse fuel (shiftn m env) sm.
Proof.
  induction m as [|m IH]; intros env s id d p pid n fuel P Hn Q.
  - exists s. rewrite Z.mul_0_r, Z.add_0_r, Nat.add_0_r. auto 10.
  - cbn [Nat.add run]. rewrite (polling_not_drained _ _ P).
    pose proof (exit_turn JSON_parse (env O) s id d p pid n P) as T; cbn zeta in T.
    rewrite wd_set_wd in T.
    change (change (env O) (wd s)) with (drift env 1 (wd s)) in T.
    rewrite (Q O ltac:(lia)) in T.
    assert (L : (maxAttempts <=? S n)%nat = false) by (apply Nat.leb_gt; lia).
    rewrite L in T. rewrite T; cbn [settle].
    destruct P as (_ & G & F).
    destruct (IH (shift env) (after_expiry (set_wd (change (env O)) s)
                                 (mkTimer id d (Some p) (CheckExit pid n))
                                 (CheckExit pid (S n)))
                 id (d + p) p pid (S n) fuel) as (sm & Pm & Wm & Km & Lm & Cm & Rm).
    + apply (polling_after_expiry _ (mkTimer id d (Some p) (CheckExit pid n)));
        destruct s; auto.
    + lia.
    + intros j Hj. cbn [after_expiry wd]. rewrite wd_set_wd. apply (Q (S j)). lia.
    + exists sm. cbn [after_expiry wd kills launched console] in *.
      rewrite wd_set_wd in Wm.
      replace (d + p * Z.of_nat (S m)) with (d + p + p * Z.of_nat m) by lia.
      replace (n + S m)%nat with (S n + m)%nat by lia.
      split; [exact Pm|]. split; [exact Wm|].
      destruct s; cbn in *. auto.
Qed.

(** Property X8.  Lines 249-295: when the process takes SIGTERM, answers
    the probe at the first [m] polls ([m < 30]) and is gone at the next,
    the controller ends with code 0 after [m + 1] seconds, SIGTERM is the
    only signal it has sent (no SIGKILL), and the records are removed when
    the file system lets it. *)
Theorem stop_graceful env s pid m fuel :
  drained s = true ->
  fst (getStatus s) = Val (Running pid) ->
  kill_ok (wd s) pid SIGTERM = true ->
  (m < 30)%nat ->
  (forall j, (j < m)%nat -> kill_ok (drift env (S j) (wd s)) pid SIG0 = true) ->
  kill_ok (drift env (S m) (wd s)) pid SIG0 = false ->
  (m < fuel)%nat ->
  exists s0 s',
    stop s = (Val true, s0) /\
    run JSON_parse fuel env s0 = Finished 0 s' /\
    kills s' = (kills s ++ [(pid, SIGTERM, true)])%list /\
    now s' = now s + 1000 * (Z.of_nat m + 1) /\
    (unlink_works (drift env (S m) (wd s)) -> records_gone (wd s')).
Proof.
  intros D H T Hm Alive Dead F. rewrite getStatus_fst in H; injection H as R.
  pose proof (stop_running s pid R) as S0. rewrite T in S0.
  eexists.
  match type of S0 with _ = (_, ?x) => set (s0 := x) in * end.
  assert (P : polling s0 (mkTimer (next_tid s) (now s + 1000) (Some 1000)
                                  (CheckExit pid 0))).
  { destruct s as [w ks c l x ts nt t0 fg fo]; unfold drained in D; cbn in D.
    destruct ts; [|discriminate]. destruct fg; [discriminate|].
    destruct fo; [discriminate|]. unfold polling; cbn; auto. }
  assert (W0 : wd s0 = wd s) by reflexivity.
  destruct (stop_after_alive m env s0 _ _ _ _ _ (S (fuel - S m)) P)
    as (sm & Pm & Wm & Km & _ & _ & Rm).
  - unfold maxAttempts; lia.
  - intros j Hj. rewrite W0. apply Alive, Hj.
  - replace (m + S (fuel - S m))%nat with fuel in Rm by lia.
    rewrite Rm. cbn [run]. rewrite (polling_not_drained _ _ Pm).
    pose proof (exit_turn JSON_parse (shiftn m env O) sm _ _ _ _ _ Pm) as X;
      cbn zeta in X.
    rewrite wd_set_wd, Wm, W0, <- drift_snoc, Dead in X.
    destruct X as (s' & E & Ht & Hg & Hfo & Hk & _ & Hn & _ & G).
    rewrite E; cbn [settle]. rewrite run_drained
      by (unfold drained; rewrite Ht, Hg, Hfo; reflexivity).
    exists s'. split; [exact S0|]. split; [reflexivity|].
    split; [rewrite Hk, Km, app_nil_r; reflexivity|].
    split; [rewrite Hn; lia|exact G].
Qed.

(** Property X10.  Lines 125-176: after a background launch, when [m]
    ticks ([m < 30]) see nothing and the next tick finds the child alive
    with a valid marker or a success line in the recent log, the controller
    exits with code 0 at [200 * (m + 1)] ms, has sent no signal, writes
    nothing in that tick, and prints one line of success. *)
Theorem readiness_succeeds env s s0 m fuel :
  drained s = true ->
  start true s = (Val true, s0) ->
  (m < 30)%nat ->
  (forall j, (j < m)%nat ->
             quiet JSON_parse (drift env (S j) (wd s0)) (child_pid (wd s))) ->
  kill_ok (drift env (S m) (wd s0)) (child_pid (wd s)) SIG0 = true ->
  marker_valid JSON_parse (drift env (S m) (wd s0)) (child_pid (wd s)) = true \/
  log_success (drift env (S m) (wd s0)) = true ->
  (m < fuel)%nat ->
  exists s',
    run JSON_parse fuel env s0 = Finished 0 s' /\
    now s' = now s + 200 * (Z.of_nat m + 1) /\
    wd s' = drift env (S m) (wd s0) /\
    kills s' = kills s /\
    exists msg, console s' = (console s0 ++ [msg])%list /\
                (msg = MStartedByLog \/ exists port, msg = MStartedByMarker port).
Proof.
  intros D E Hm Q Alive Sig F.
  destruct (start_accepted_files true s s0 E) as (R & _).
  destruct (start_not_running true s R) as (r & s1 & E' & H).
  rewrite E in E'. injection E' as <- <-.
  destruct H as [(_ & L & K & Fo & N & Cp & Wr & T & G & _)|(X & _)]; [|discriminate].
  assert (P : polling s0 (mkTimer (next_tid s) (now s + 200) (Some 200)
                                  (CheckStartup (child_pid (wd s)) 0))).
  { destruct s as [w ks c l x ts nt t0 fg fo]; unfold drained in D; cbn in *.
    destruct ts; [|discriminate]. destruct fg; [discriminate|].
    destruct fo; [discriminate|]. unfold polling; auto. }
  destruct (startup_after_quiet m env s0 _ _ _ _ _ (S (fuel - S m)) P)
    as (sm & Pm & Wm & Km & _ & Cm & Rm).
  - unfold maxChecks; lia.
  - exact Q.
  - replace (m + S (fuel - S m))%nat with fuel in Rm by lia.
    rewrite Rm. cbn [run]. rewrite (polling_not_drained _ _ Pm).
    pose proof (startup_turn JSON_parse (shiftn m env O) sm _ _ _ _ _ Pm) as X;
      cbn zeta in X.
    rewrite wd_set_wd, Wm, <- drift_snoc in X.
    assert (V : spec_tick JSON_parse (drift env (S m) (wd s0)) (child_pid (wd s))
                          (S (0 + m)) = SUCCESS).
    { unfold spec_tick. rewrite Alive. cbn [negb].
      destruct Sig as [M|M]; rewrite M; [reflexivity|].
      destruct (marker_valid _ _ _); reflexivity. }
    rewrite V in X. destruct X as (s' & msg & Ex & (Hw & Hk & _ & Hn & Hc) & Hmsg).
    rewrite Ex; cbn [settle]. exists s'.
    cbn [after_expiry wd kills now console due] in *. rewrite wd_set_wd in Hw.
    split; [reflexivity|]. split; [rewrite Hn; lia|].
    split; [rewrite Hw, Wm, <- drift_snoc; reflexivity|].
    split; [destruct sm; cbn in *; congruence|].
    exists msg. split; [destruct sm; cbn in *; congruence|exact Hmsg].
Qed.

(** Property X11.  Lines 125-138: after a background launch, when [m]
    ticks ([m < 30]) see nothing and at the next the child is gone, the
    controller exits with code 1 at [200 * (m + 1)] ms, has sent no signal,
    and the records are removed when the file system lets it. *)
Theorem readiness_child_gone env s s0 m fuel :
  drained s = true ->
  start true s = (Val true, s0) ->
  (m < 30)%nat ->
  (forall j, (j < m)%nat ->
             quiet JSON_parse (drift env (S j) (wd s0)) (child_pid (wd s))) ->
  kill_ok (drift env (S m) (wd s0)) (child_pid (wd s)) SIG0 = false ->
  (m < fuel)%nat ->
  exists s',
    run JSON_parse fuel env s0 = Finished 1 s' /\
    now s' = now s + 200 * (Z.of_nat m + 1) /\
    kills s' = kills s /\
    (unlink_works (drift env (S m) (wd s0)) -> records_gone (wd s')).
Proof.
  intros D E Hm Q Dead F.
  destruct (start_accepted_files true s s0 E) as (R & _).
  destruct (start_not_running true s R) as (r & s1 & E' & H).
  rewrite E in E'. injection E' as <- <-.
  destruct H as [(_ & L & K & Fo & N & Cp & Wr & T & G & _)|(X & _)]; [|discriminate].
  assert (P : polling s0 (mkTimer (next_tid s) (now s + 200) (Some 200)
                                  (CheckStartup (child_pid (wd s)) 0))).
  { destruct s as [w ks c l x ts nt t0 fg fo]; unfold drained in D; cbn in *.
    destruct ts; [|discriminate]. destruct fg; [discriminate|].
    destruct fo; [discriminate|]. unfold polling; auto. }
  destruct (startup_after_quiet m env s0 _ _ _ _ _ (S (fuel - S m)) P)
    as (sm & Pm & Wm & Km & _ & Cm & Rm).
  - unfold maxChecks; lia.
  - exact Q.
  - replace (m + S (fuel - S m))%nat with fuel in Rm by lia.
    rewrite Rm. cbn [run]. rewrite (polling_not_drained _ _ Pm).
    pose proof (startup_turn JSON_parse (shiftn m env O) sm _ _ _ _ _ Pm) as X;
      cbn zeta in X.
    rewrite wd_set_wd, Wm, <- drift_snoc in X.
    assert (V : spec_tick JSON_parse (drift env (S m) (wd s0)) (child_pid (wd s))
                          (S (0 + m)) = FAILURE).
    { unfold spec_tick. rewrite Dead. reflexivity. }
    rewrite V, Dead in X. destruct X as (s' & Ex & _ & Gone & _ & Hn & Hk).
    rewrite Ex; cbn [settle]. exists s'.
    split; [reflexivity|]. split; [rewrite Hn; lia|].
    split; [rewrite Hk, app_nil_r; congruence|exact Gone].
Qed.

(** The follow mode, turn by turn. *)
Lemma follow_until_interrupt m :
  forall env s fuel,
    timers s = [] -> fg_child s = None -> follower s = true ->
    (forall j, (j < m)%nat ->
               arrival (env j) <> Some Interrupt /\ arrival (env j) <> Some TailExited) ->
    arrival (env m) = Some Interrupt ->
    (if (fuel <=? m)%nat then exit_code (run JSON_parse fuel env s) = None
     else exists s', run JSON_parse fuel env s = Finished 0 s' /\
                     console s' = (console s ++ [MFollowStopped])%list /\
                     wd s' = drift env (S m) (wd s) /\
                     kills s' = kills s /\ follower s' = false).
Proof.
  induction m as [|m IH]; intros env s fuel T G F Q A;
    destruct s as [w ks c l x ts nt t0 fg fo]; cbn in T, G, F; subst.
  - destruct fuel as [|fuel]; [reflexivity|]. cbn [Nat.leb run drained timers fg_child follower].
    unfold turn; cbn. rewrite A. unfold on_sigint, set_follower, log, bind, exit. cbn.
    eexists. split; [reflexivity|]. cbn. auto.
  - destruct fuel as [|fuel]; [reflexivity|].
    cbn [Nat.leb run drained timers fg_child follower].
    destruct (Q O ltac:(lia)) as (Q1 & Q2).
    assert (Tn : turn JSON_parse (env O)
                   (mkState w ks c l x [] nt t0 None true)
                 = (Val tt, mkState (change (env O) w) ks c l x [] nt t0 None true)).
    { unfold turn; cbn. destruct (arrival (env O)) as [[]|]; try reflexivity; congruence. }
    rewrite Tn; cbn [settle].
    specialize (IH (shift env) (mkState (change (env O) w) ks c l x [] nt t0 None true)
                   fuel eq_refl eq_refl eq_refl).
    apply IH; [|exact A].
    intros j Hj. apply (Q (S j)). lia.
Qed.


End Runs.

(** ** The tail of the log, and [restart] *)

Lemma split_lines_nonempty s : split_lines s <> [].
Proof.
  destruct s as [|c t]; cbn; [discriminate|].
  destruct (Ascii.eqb c LF); [discriminate|].
  destruct (split_lines t); discriminate.
Qed.

Lemma join_split s : join_lines (split_lines s) = s.
Proof.
  induction s as [|c t IH]; [reflexivity|]. cbn [split_lines].
  pose proof (split_lines_nonempty t) as N.
  destruct (Ascii.eqb c LF) eqn:E.
  - apply Ascii.eqb_eq in E. subst c.
    destruct (split_lines t) as [|l ls]; [congruence|].
    cbn [join_lines]. cbn [join_lines] in IH. rewrite IH. reflexivity.
  - destruct (split_lines t) as [|l ls]; [congruence|].
    cbn [join_lines] in *. destruct ls; cbn; rewrite <- IH; reflexivity.
Qed.

Lemma join_skipn_tail s :
  forall k, exists prefix, s = prefix ++ join_lines (skipn k (split_lines s)).
Proof.
  induction s as [|c t IH]; intros k.
  - exists EmptyString. destruct k as [|[|k]]; reflexivity.
  - destruct k as [|k].
    + exists EmptyString. cbn [skipn]. rewrite join_split. reflexivity.
    + cbn [split_lines].
      pose proof (split_lines_nonempty t) as N.
      destruct (Ascii.eqb c LF).
      * cbn [skipn]. destruct (IH k) as (p & E).
        exists (String c p). cbn. rewrite <- E. reflexivity.
      * destruct (split_lines t) as [|l ls] eqn:Sp; [congruence|].
        cbn [skipn]. destruct (IH (S k)) as (p & E). cbn [skipn] in E.
        exists (String c p). cbn. rewrite <- E. reflexivity.
Qed.

Lemma includes_append prefix s p :
  includes s p = true -> includes (prefix ++ s) p = true.
Proof.
  intros H. induction prefix as [|c t IH]; [exact H|].
  cbn [append includes]. rewrite IH. apply orb_true_r.
Qed.

(** Property X16.  Line 164: the part of the log that the readiness poll
    looks at is a tail of the log.  A mark found in it is in the log, and
    a log of at most 30 lines is looked at whole. *)
Theorem recent_is_a_tail content :
  (exists prefix, content = prefix ++ recent content) /\
  (forall mark, includes (recent content) mark = true ->
                includes content mark = true) /\
  ((List.length (split_lines content) <= 30)%nat -> recent content = content).
Proof.
  unfold recent, slice_last.
  destruct (join_skipn_tail content (List.length (split_lines content) - 30))
    as (p & E).
  split; [exists p; exact E|]. split.
  - intros mark H. rewrite E. apply includes_append. exact H.
  - intros L. replace (List.length (split_lines content) - 30)%nat with O by lia.
    cbn [skipn]. apply join_split.
Qed.

Lemma ex_pair {A B} (P : A -> Prop) (Q : A -> B -> Prop) :
  (exists a, P a /\ exists b, Q a b) -> exists a b, P a /\ Q a b.
Proof. intros (a & H & b & K). exists a, b. split; assumption. Qed.

Section Relaunch.
Variable JSON_parse : string -> option json.

Local Opaque Nat.eqb Z.ltb Z.add Nat.leb.

(** Property X15.  Lines 297-306: when the running process takes SIGTERM
    and is gone at the first poll, the records can be removed, and the next
    move of the environment neither re-creates the PID file nor (for a
    background start) blocks the log files, [restart] ends the old process
    with SIGTERM alone and launches the new child 2000 ms after the
    call. *)
Theorem restart_relaunches env s pid daemon :
  drained s = true ->
  fst (getStatus s) = Val (Running pid) ->
  kill_ok (wd s) pid SIGTERM = true ->
  kill_ok (drift env 1 (wd s)) pid SIG0 = false ->
  unlink_works (drift env 1 (wd s)) ->
  (forall w', fs w' PID_FILE = None -> fs (change (env 1%nat) w') PID_FILE = None) ->
  (daemon = true ->
   forall w', faulty w' = faulty (drift env 1 (wd s)) ->
              faulty (change (env 1%nat) w') OpOpen LOG_FILE = false /\
              faulty (change (env 1%nat) w') OpOpen ERROR_LOG_FILE = false) ->
  exists s1 s2,
    restart daemon s = (Val true, s1) /\
    run JSON_parse 2 env s1 = StillRunning s2 /\
    now s2 = now s + 2000 /\
    kills s2 = (kills s ++ [(pid, SIGTERM, true)])%list /\
    launched s2 = (launched s ++ [child_pid (wd s2)])%list.
Proof.
  intros D H T Dead U Keep Open. rewrite getStatus_fst in H; injection H as R.
  destruct s as [w ks c l x ts nt t0 fg fo]. unfold drained in D; cbn in D.
  destruct ts; [|discriminate]. destruct fg; [discriminate|]. destruct fo; [discriminate|].
  cbn in *.
  pose proof (stop_running (say MRestarting (mkState w ks c l x [] nt t0 None false)) pid R) as S0.
  cbn in S0. rewrite T in S0.
  unfold restart, setTimeout, add_timer, log, bind. unfold say, log in S0. cbn in S0 |- *.
  rewrite S0. cbn.
  apply ex_pair. eexists. split; [reflexivity|].
  assert (L1 : (t0 + 2000 <? t0 + 1000) = false) by (apply Z.ltb_ge; lia).
  assert (N1 : Nat.eqb (S nt) nt = false) by (apply Nat.eqb_neq; lia).
  assert (N2 : Nat.eqb nt (S nt) = false) by (apply Nat.eqb_neq; lia).
  unfold turn. cbn.
  destruct (arrival (env O)) as [[]|]; cbn; rewrite L1; cbn.
  all: unfold fire, expire, checkExit, isProcessRunning, clearInterval, recapture, bind,
         try_catch, kill, ret, set_timers, log; cbn.
  all: rewrite ?Nat.eqb_refl, ?N1, ?N2; cbn; rewrite Dead; cbn.
  all: rewrite ?Nat.eqb_refl, ?N1, ?N2; cbn.
  all: match goal with |- context [removePidFile ?x] =>
         destruct (removePidFile_spec x) as (s' & E' & C & Ko & G & _) end;
       rewrite E'; cbn;
       destruct s' as [w' ks' c' l' x' ts' nt' t' fg' fo'];
       unfold keeps_control in C; cbn in C, Ko, G |- *;
       destruct C as (-> & -> & -> & -> & -> & -> & -> & ->);
       cbn; rewrite ?Nat.eqb_refl, ?N1, ?N2; cbn.
  all: specialize (G U); destruct G as (Gp & _).
  all: unfold turn; cbn.
  all: destruct (arrival (shift env O)) as [[]|]; cbn.
  all: unfold fire, expire, bind; cbn; rewrite ?Nat.eqb_refl, ?N1, ?N2; cbn.
  all: match goal with |- context [start _ ?st] =>
         assert (RN : registry (wd st) = NotRunning)
           by (unfold registry; cbn; unfold shift; rewrite (Keep _ Gp); reflexivity);
         destruct (start_not_running daemon st RN) as (r & s2 & Es & Hs) end;
       rewrite Es;
       destruct Hs as [(-> & Hl & Hk & _ & Hn & Hc & _ & Rest)|(_ & -> & _ & Bad)].
  all: try (exfalso; destruct (Open eq_refl w' (proj1 (proj2 Ko))) as (B1 & B2); cbn in Bad;
            unfold shift in Bad; destruct Bad; congruence).
  all: cbn in Hl, Hk, Hn, Hc |- *.
  all: assert (ND : drained s2 = false)
         by (unfold drained; destruct daemon;
             [destruct Rest as (Tm & _); cbn in Tm; rewrite Tm; reflexivity
             |destruct Rest as (Tm & Fg); cbn in Tm, Fg; rewrite Tm, Fg; reflexivity]).
  all: rewrite ND.
  all: cbn; eexists; split; [reflexivity|]; rewrite Hn, Hk, Hl, Hc; repeat split; reflexivity.
Qed.
End Relaunch.

(** ** Launch faults and the removal of the records *)

(** Property X18.  Lines 98-221: a background [start] that cannot open one
    of the two log files spawns nothing, sends no signal, arms no timer,
    removes the records when the file system lets it, and exits with
    code 1. *)
Theorem daemon_launch_fault s :
  fst (getStatus s) = Val NotRunning ->
  faulty (wd s) OpOpen LOG_FILE = true \/ faulty (wd s) OpOpen ERROR_LOG_FILE = true ->
  exists s',
    start true s = (Exit 1, s') /\
    launched s' = launched s /\ kills s' = kills s /\ timers s' = timers s /\
    (unlink_works (wd s) -> records_gone (wd s')).
Proof.
  intros H Fault. rewrite getStatus_fst in H; injection H as R.
  destruct (getStatus_registry s) as (s1 & E1 & W & C & _).
  rewrite R in E1. unfold start, bind at 1. rewrite E1.
  unfold keeps_control in C.
  destruct s as [w ks c l x ts nt t0 fg fo].
  destruct s1 as [w1 ks1 c1 l1 x1 ts1 nt1 t1 fg1 fo1]; cbn in *.
  destruct C as (-> & -> & -> & -> & -> & -> & -> & ->). subst w1.
  unfold writePid, spawn_service, setInterval, add_timer, set_fg_child.
  open_prims.
  destruct w as [f k fl cp]; cbn in *.
  destruct (f STARTUP_MARKER_FILE) eqn:Em;
    [destruct (fl OpUnlink STARTUP_MARKER_FILE) eqn:Fm|];
    simp;
    (destruct (fl OpOpen LOG_FILE) eqn:Fo1; simp;
     [| destruct (f LOG_FILE) eqn:El; simp;
        (destruct (fl OpOpen ERROR_LOG_FILE) eqn:Fo2; simp;
         [| destruct Fault; discriminate])]).
  all: match goal with |- context [removePidFile ?x] =>
         destruct (removePidFile_spec x) as (s' & E' & C & _ & G & _) end;
       rewrite E'; cbn; exists s'; unfold keeps_control in C; cbn in C, G;
       destruct C as (Ck & Cl & _ & Ct & _);
       split; [reflexivity|]; split; [exact Cl|]; split; [exact Ck|];
       split; [exact Ct|exact G].
Qed.

Transparent removePidFile.

(** Property X17.  Lines 56-70: [removePidFile] never throws.  When the
    PID file is absent or can be removed it is gone afterwards, and so is
    the marker under the same condition (else the marker stays); when the
    PID file is there and its removal is refused, nothing at all is
    removed, the marker included, and one line is printed.  A second call
    leaves the files as the first did. *)
Theorem cleanup_outcomes s :
  exists s',
    removePidFile s = (Val tt, s') /\
    ((fs (wd s) PID_FILE = None \/ faulty (wd s) OpUnlink PID_FILE = false) ->
     fs (wd s') PID_FILE = None /\
     ((fs (wd s) STARTUP_MARKER_FILE = None \/
       faulty (wd s) OpUnlink STARTUP_MARKER_FILE = false) ->
      fs (wd s') STARTUP_MARKER_FILE = None) /\
     (fs (wd s) STARTUP_MARKER_FILE <> None ->
      faulty (wd s) OpUnlink STARTUP_MARKER_FILE = true ->
      fs (wd s') STARTUP_MARKER_FILE = fs (wd s) STARTUP_MARKER_FILE)) /\
    (fs (wd s) PID_FILE <> None -> faulty (wd s) OpUnlink PID_FILE = true ->
     s' = say MCleanupFailed s) /\
    wd (snd (removePidFile s')) = wd s'.
Proof.
  destruct s as [[f k fl cp] ks c l x ts nt t0 fg fo].
  unfold removePidFile, say. open_prims; cbn.
  destruct (f PID_FILE) eqn:Ep; destruct (fl OpUnlink PID_FILE) eqn:Fp; cbn;
    destruct (f STARTUP_MARKER_FILE) eqn:Em;
    destruct (fl OpUnlink STARTUP_MARKER_FILE) eqn:Fm;
    repeat (progress (cbn; rewrite ?Ep, ?Fp, ?Em, ?Fm));
    eexists; (split; [reflexivity|]);
    repeat (progress (cbn; rewrite ?Ep, ?Fp, ?Em, ?Fm));
    repeat split; try reflexivity; try congruence;
    try (intros [?|?]; congruence); try (intros ? [?|?]; congruence).
  all: match goal with H : _ \/ _ |- _ => destruct H; discriminate end.
Qed.

Transparent toString.

(** ** The further properties on concrete runs *)



Lemma started_service_is_registered_witness :
  getStatus (snd (start false (initial (w_fresh None None))))
  = (Val (Running 5000), snd (start false (initial (w_fresh None None)))).
Proof.
  destruct (started_service_is_registered false (initial (w_fresh None None))
              (snd (start false (initial (w_fresh None None))))
              (snd (start false (initial (w_fresh None None))))) as (G & _).
  - vm_compute; reflexivity.
  - vm_compute; reflexivity.
  - vm_compute; lia.
  - reflexivity.
  - vm_compute; reflexivity.
  - vm_compute; reflexivity.
  - exact G.
Defined.

Lemma start_rejected_when_running_witness :
  exists s',
    start true (initial w_running) = (Val false, s') /\
    launched s' = [] /\ console s' = [MAlreadyRunning 4242].
Proof.
  destruct (start_rejected_when_running true (initial w_running) 4242)
    as (s' & E & _ & L & _ & _ & _ & C).
  - vm_compute; reflexivity.
  - exists s'. split; [exact E|]. split; [exact L|exact C].
Defined.

Lemma start_clears_stale_marker_witness :
  fs (wd (initial w_stale)) STARTUP_MARKER_FILE = Some sample_marker_text /\
  fs (wd (snd (start false (initial w_stale)))) STARTUP_MARKER_FILE = None.
Proof.
  split; [reflexivity|].
  destruct (start_clears_stale_marker false (initial w_stale)
              (snd (start false (initial w_stale)))) as (G & _).
  - vm_compute; reflexivity.
  - apply G. vm_compute; reflexivity.
Defined.


Lemma foreground_child_exit_witness :
  exists s',
    turn sample_parse (mkEnv (fun w => w) (Some (ChildExited (Some 1) None)))
         (snd (start false (initial (w_fresh None None)))) = (Val tt, s') /\
    drained s' = true /\ records_gone (wd s').
Proof.
  destruct (foreground_child_exit sample_parse
              (mkEnv (fun w => w) (Some (ChildExited (Some 1) None)))
              (snd (start false (initial (w_fresh None None)))) 5000 (Some 1) None)
    as (s' & cleanup & E & D & _ & G & _).
  - vm_compute; reflexivity.
  - vm_compute; reflexivity.
  - vm_compute; reflexivity.
  - reflexivity.
  - exists s'. split; [exact E|]. split; [exact D|].
    apply G. split; vm_compute; reflexivity.
Defined.

Lemma stop_graceful_witness :
  exists s',
    run sample_parse 3 (gone_at 2) (snd (stop (initial w_running))) = Finished 0 s' /\
    kills s' = [(4242, SIGTERM, true)] /\ now s' = 3000 /\ records_gone (wd s').
Proof.
  destruct (stop_graceful sample_parse (gone_at 2) (initial w_running) 4242 2 3)
    as (s0 & s' & E & R & K & N & G).
  - vm_compute; reflexivity.
  - vm_compute; reflexivity.
  - vm_compute; reflexivity.
  - lia.
  - intros j Hj. destruct j as [|[|j]]; [vm_compute; reflexivity|vm_compute; reflexivity|lia].
  - vm_compute; reflexivity.
  - lia.
  - exists s'. rewrite E. split; [exact R|]. split; [exact K|]. split; [exact N|].
    apply G. split; vm_compute; reflexivity.
Defined.

Lemma stop_signal_refused_witness :
  exists s',
    stop (initial w_unstoppable) = (Val false, s') /\
    kills s' = [(4242, SIGTERM, false)] /\ timers s' = [] /\ records_gone (wd s').
Proof.
  destruct (stop_signal_refused (initial w_unstoppable) 4242) as (s' & E & K & T & G).
  - vm_compute; reflexivity.
  - vm_compute; reflexivity.
  - exists s'. split; [exact E|]. split; [exact K|]. split; [exact T|].
    apply G. split; vm_compute; reflexivity.
Defined.

Lemma readiness_succeeds_witness :
  exists s',
    run sample_parse 2 (marker_at 1) (snd (start true (initial (w_fresh None None))))
    = Finished 0 s' /\
    now s' = 400 /\ kills s' = [].
Proof.
  destruct (readiness_succeeds sample_parse (marker_at 1) (initial (w_fresh None None))
              (snd (start true (initial (w_fresh None None)))) 1 2)
    as (s' & R & N & _ & K & _).
  - vm_compute; reflexivity.
  - vm_compute; reflexivity.
  - lia.
  - intros j Hj. destruct j as [|j]; [|lia].
    unfold quiet. repeat split; vm_compute; reflexivity.
  - vm_compute; reflexivity.
  - left. vm_compute; reflexivity.
  - lia.
  - exists s'. split; [exact R|]. split; [exact N|exact K].
Defined.

Lemma readiness_child_gone_witness :
  exists s',
    run sample_parse 3 (gone_at 2) (snd (start true (initial (w_fresh None None))))
    = Finished 1 s' /\
    now s' = 600 /\ kills s' = [] /\ records_gone (wd s').
Proof.
  destruct (readiness_child_gone sample_parse (gone_at 2) (initial (w_fresh None None))
              (snd (start true (initial (w_fresh None None)))) 2 3)
    as (s' & R & N & K & G).
  - vm_compute; reflexivity.
  - vm_compute; reflexivity.
  - lia.
  - intros j Hj. destruct j as [|[|j]]; [| |lia];
      unfold quiet; repeat split; vm_compute; reflexivity.
  - vm_compute; reflexivity.
  - lia.
  - exists s'. split; [exact R|]. split; [exact N|]. split; [exact K|].
    apply G. split; vm_compute; reflexivity.
Defined.

Lemma unusable_marker_is_ignored_witness :
  fst (checkStartup sample_parse 0 5000 0 (initial (w_fresh None (Some "null")))) =
  fst (checkStartup sample_parse 0 5000 0
         (set_wd (fs_set STARTUP_MARKER_FILE None)
                 (initial (w_fresh None (Some "null"))))).
Proof.
  apply (unusable_marker_is_ignored sample_parse 0 5000 0
           (initial (w_fresh None (Some "null")))).
  vm_compute; reflexivity.
Defined.


Lemma restart_relaunches_witness :
  exists s2,
    run sample_parse 2 (gone_at 0) (snd (restart true (initial w_running)))
    = StillRunning s2 /\
    now s2 = 2000 /\ launched s2 = [5000] /\ kills s2 = [(4242, SIGTERM, true)].
Proof.
  destruct (restart_relaunches sample_parse (gone_at 0) (initial w_running) 4242 true)
    as (s1 & s2 & E & R & N & K & L).
  - vm_compute; reflexivity.
  - vm_compute; reflexivity.
  - vm_compute; reflexivity.
  - vm_compute; reflexivity.
  - split; vm_compute; reflexivity.
  - intros w' H. exact H.
  - intros _ w' H. cbn. rewrite H. split; vm_compute; reflexivity.
  - assert (S1 : s1 = snd (restart true (initial w_running)))
      by (rewrite E; reflexivity).
    subst s1. exists s2. split; [exact R|]. split; [exact N|].
    split; [|exact K]. rewrite L.
    vm_compute in R. injection R as <-. reflexivity.
Defined.

Lemma daemon_launch_fault_witness :
  exists s',
    start true (initial w_log_unopenable) = (Exit 1, s') /\
    launched s' = [] /\ records_gone (wd s').
Proof.
  destruct (daemon_launch_fault (initial w_log_unopenable)) as (s' & E & L & _ & _ & G).
  - vm_compute; reflexivity.
  - right. vm_compute; reflexivity.
  - exists s'. split; [exact E|]. split; [exact L|].
    apply G. split; vm_compute; reflexivity.
Defined.


Lemma recent_is_a_tail_witness :
  recent (log_with_old_failure 3) = log_with_old_failure 3 /\
  exists prefix,
    log_with_old_failure 30 = prefix ++ recent (log_with_old_failure 30).
Proof.
  split.
  - apply (proj2 (proj2 (recent_is_a_tail (log_with_old_failure 3)))).
    vm_compute; lia.
  - exact (proj1 (recent_is_a_tail (log_with_old_failure 30))).
Defined.

Lemma cleanup_outcomes_witness :
  removePidFile (initial w_pid_locked)
  = (Val tt, say MCleanupFailed (initial w_pid_locked)) /\
  fs (wd (snd (removePidFile (initial w_pid_locked)))) STARTUP_MARKER_FILE
  = Some sample_marker_text.
Proof.
  destruct (cleanup_outcomes (initial w_pid_locked)) as (s' & E & _ & F & _).
  rewrite E. rewrite (F ltac:(vm_compute; discriminate) ltac:(vm_compute; reflexivity)).
  split; reflexivity.
Defined.
